(** * Inventory manager: the tenant-scoped record store of [q.py]

    A shallow embedding of the store, the access filter, the display
    filter, the edit-session commit, the delete action, the import and
    the export dialogue of [q.py], followed by the properties of the
    specification stated over that embedding.

    Modelling choices.
    - A Python [dict] with string keys and string values is an
      association list in insertion order; [PyDict.set] overwrites in
      place or appends, as [d[k] = v] does.  A well-formed dict has no
      repeated key ([PyDict.wf]).
    - A Python [str] is a [string]; a character is a code point below
      256.  The persistence layer is modelled a second time in [Uni]
      over all code points, surrogates included.
    - The module-level [current_user] is a section variable.
    - The file system, the [git] subprocess calls and the wall clock
      are fields of a [World] that is passed explicitly. *)

From Stdlib Require Import String Ascii List Bool Arith NArith ZArith Lia.
From stdpp Require Import base list strings sorting.

(** ** Python dictionaries with string keys and values *)

Module PyDict.

Definition pydict : Type := list (string * string).

(** [d.get(k)]: [None] when the key is missing. *)
Fixpoint get (d : pydict) (k : string) : option string :=
  match d with
  | [] => None
  | (k', v) :: rest => if decide (k' = k) then Some v else get rest k
  end.

(** [d.get(k, dflt)]. *)
Definition get_default (d : pydict) (k dflt : string) : string :=
  default dflt (get d k).

(** [d[k] = v]: an existing key keeps its position, a new key goes
    last. *)
Fixpoint set (d : pydict) (k v : string) : pydict :=
  match d with
  | [] => [(k, v)]
  | (k', v') :: rest =>
      if decide (k' = k) then (k, v) :: rest else (k', v') :: set rest k v
  end.

Definition keys (d : pydict) : list string := d.*1.
Definition values (d : pydict) : list string := d.*2.

(** No key occurs twice: the invariant of every Python dict. *)
Definition wf (d : pydict) : Prop := NoDup (keys d).

(** [dict(pairs)]: later pairs overwrite earlier ones. *)
Definition of_pairs (ps : list (string * string)) : pydict :=
  foldl (λ d kv, set d kv.1 kv.2) [] ps.

End PyDict.

Abbreviation pydict := PyDict.pydict.

(** ** Module constants of [q.py] *)

Definition DATA_FILE : string := "data.json".
Definition LAST_UPDATED_FIELD : string := "Last Updated".
Definition TENANT_FIELD : string := "Tenant".
Definition PROJECT_FIELD : string := "Project".
Definition ADMIN : string := "administrator".

(** The tuple a row shows in the table:
    [[row.get(col, "") for col in self.columns]]. *)
Definition row_values (columns : list string) (row : pydict) : list string :=
  map (λ col, PyDict.get_default row col "") columns.

(** Python truthiness of [existing_entry]: [None] and the empty
    sequence are false. *)
Definition truthy (existing_entry : option (list string)) : bool :=
  match existing_entry with
  | None => false
  | Some [] => false
  | Some (_ :: _) => true
  end.

(** ** Python string methods used by [q.py] *)

Module PyStr.

(** [c.lower()] for a code point below 256: the ASCII capitals and the
    Latin-1 capitals (U+00C0 to U+00DE without the multiplication
    sign U+00D7) move up by 32. *)
Definition lower_char (c : ascii) : ascii :=
  let n := nat_of_ascii c in
  if ((65 <=? n) && (n <=? 90))
     || ((192 <=? n) && (n <=? 222) && negb (n =? 215))
  then ascii_of_nat (n + 32)
  else c.

(** [s.lower()] *)
Fixpoint lower (s : string) : string :=
  match s with
  | EmptyString => EmptyString
  | String c rest => String (lower_char c) (lower rest)
  end.

(** [c.isspace()] for a code point below 256. *)
Definition is_space (c : ascii) : bool :=
  let n := nat_of_ascii c in
  ((9 <=? n) && (n <=? 13)) || ((28 <=? n) && (n <=? 32))
  || (n =? 133) || (n =? 160).

Fixpoint lstrip (s : string) : string :=
  match s with
  | EmptyString => EmptyString
  | String c rest => if is_space c then lstrip rest else s
  end.

Definition rstrip (s : string) : string :=
  String.rev (lstrip (String.rev s)).

(** [s.strip()] *)
Definition strip (s : string) : string := rstrip (lstrip s).

(** [s.startswith(p)] *)
Fixpoint startswith (p s : string) : bool :=
  match p, s with
  | EmptyString, _ => true
  | String _ _, EmptyString => false
  | String a p', String b s' => Ascii.eqb a b && startswith p' s'
  end.

(** [needle in hay] *)
Fixpoint contains (needle hay : string) : bool :=
  startswith needle hay
  || match hay with
     | EmptyString => false
     | String _ hay' => contains needle hay'
     end.

End PyStr.

(** ** The [json] encoder and decoder on lists of string dicts

    [json.dump] with [ensure_ascii] (the default) and [json.load] in
    strict mode (the default), restricted to the documents the data
    model holds: an array of objects whose values are strings.  A
    document of any other shape, and an escape [\uXXXX] of a code
    point above 255, is outside the model and decodes to [None], as
    does a document on which [json.load] raises. *)

Module Json.

Definition chars (s : string) : list ascii := list_ascii_of_string s.

Definition quote : ascii := "034"%char.
Definition backslash : ascii := "092"%char.

(** One lower-case hexadecimal digit, as ["%x"] prints it. *)
Definition hex_digit (n : nat) : ascii :=
  if n <? 10 then ascii_of_nat (48 + n) else ascii_of_nat (87 + n).

(** The replacement of one character in [encode_basestring_ascii]:
    printable ASCII other than the quote and the backslash stays,
    the short escapes come from [ESCAPE_DCT], everything else is
    [\u00xx]. *)
Definition escape_char (c : ascii) : list ascii :=
  let n := nat_of_ascii c in
  if Ascii.eqb c quote then [backslash; quote]
  else if Ascii.eqb c backslash then [backslash; backslash]
  else if n =? 8 then [backslash; "b"%char]
  else if n =? 12 then [backslash; "f"%char]
  else if n =? 10 then [backslash; "n"%char]
  else if n =? 13 then [backslash; "r"%char]
  else if n =? 9 then [backslash; "t"%char]
  else if (32 <=? n) && (n <=? 126) then [c]
  else [backslash; "u"%char; "0"%char; "0"%char;
        hex_digit (n / 16); hex_digit (n mod 16)].

Fixpoint escape (s : string) : list ascii :=
  match s with
  | EmptyString => []
  | String c rest => escape_char c ++ escape rest
  end.

(** [encode_basestring_ascii(s)] *)
Definition encode_string (s : string) : list ascii :=
  quote :: escape s ++ [quote].

(** [sep.join(items)] on chunks of text. *)
Fixpoint join (sep : list ascii) (items : list (list ascii)) : list ascii :=
  match items with
  | [] => []
  | [x] => x
  | x :: rest => x ++ sep ++ join sep rest
  end.

(** ['\n' + indent * level] *)
Definition newline_indent (indent : list ascii) (level : nat) : list ascii :=
  "010"%char :: concat (replicate level indent).

Definition encode_member (key_separator : list ascii)
    (kv : string * string) : list ascii :=
  encode_string kv.1 ++ key_separator ++ encode_string kv.2.

(** [_iterencode_dict] at nesting depth [level]; [indent] is [None]
    for the compact form. *)
Definition encode_dict (indent : option (list ascii))
    (item_separator key_separator : list ascii) (level : nat)
    (d : pydict) : list ascii :=
  match d with
  | [] => chars "{}"
  | _ :: _ =>
      match indent with
      | Some ind =>
          chars "{" ++ newline_indent ind (S level)
          ++ join (item_separator ++ newline_indent ind (S level))
                  (map (encode_member key_separator) d)
          ++ newline_indent ind level ++ chars "}"
      | None =>
          chars "{"
          ++ join item_separator (map (encode_member key_separator) d)
          ++ chars "}"
      end
  end.

(** [_iterencode_list] at nesting depth [level]. *)
Definition encode_list (indent : option (list ascii))
    (item_separator key_separator : list ascii) (level : nat)
    (rows : list pydict) : list ascii :=
  match rows with
  | [] => chars "[]"
  | _ :: _ =>
      match indent with
      | Some ind =>
          chars "[" ++ newline_indent ind (S level)
          ++ join (item_separator ++ newline_indent ind (S level))
                  (map (encode_dict indent item_separator key_separator
                          (S level)) rows)
          ++ newline_indent ind level ++ chars "]"
      | None =>
          chars "["
          ++ join item_separator
                  (map (encode_dict indent item_separator key_separator
                          (S level)) rows)
          ++ chars "]"
      end
  end.

(** [json.dump(data, f, indent=2)]: the separators default to
    [(',', ': ')] when an indent is given. *)
Definition dump_indent2 (data : list pydict) : string :=
  string_of_list_ascii
    (encode_list (Some (chars "  ")) (chars ",") (chars ": ") 0 data).

(** [json.dumps(row)]: no indent, separators [(', ', ': ')]. *)
Definition dumps (row : pydict) : string :=
  string_of_list_ascii (encode_dict None (chars ", ") (chars ": ") 0 row).

(** *** Decoder *)

(** The whitespace of [json.decoder.WHITESPACE]: space, tab, line
    feed, carriage return. *)
Definition is_ws (c : ascii) : bool :=
  let n := nat_of_ascii c in
  (n =? 32) || (n =? 9) || (n =? 10) || (n =? 13).

Fixpoint skip_ws (l : list ascii) : list ascii :=
  match l with
  | [] => []
  | c :: rest => if is_ws c then skip_ws rest else l
  end.

Definition hex_value (c : ascii) : option nat :=
  let n := nat_of_ascii c in
  if (48 <=? n) && (n <=? 57) then Some (n - 48)
  else if (97 <=? n) && (n <=? 102) then Some (n - 87)
  else if (65 <=? n) && (n <=? 70) then Some (n - 55)
  else None.

(** The four hexadecimal digits after [\u]. *)
Definition hex4 (h1 h2 h3 h4 : ascii) : option nat :=
  match hex_value h1, hex_value h2, hex_value h3, hex_value h4 with
  | Some a, Some b, Some c, Some d => Some (((a * 16 + b) * 16 + c) * 16 + d)
  | _, _, _, _ => None
  end.

(** [BACKSLASH]: the one-character escapes of the decoder. *)
Definition unescape (e : ascii) : option ascii :=
  if Ascii.eqb e quote then Some quote
  else if Ascii.eqb e backslash then Some backslash
  else if Ascii.eqb e "/"%char then Some "/"%char
  else if Ascii.eqb e "b"%char then Some "008"%char
  else if Ascii.eqb e "f"%char then Some "012"%char
  else if Ascii.eqb e "n"%char then Some "010"%char
  else if Ascii.eqb e "r"%char then Some "013"%char
  else if Ascii.eqb e "t"%char then Some "009"%char
  else None.

Definition push (c : ascii) (r : option (string * list ascii))
    : option (string * list ascii) :=
  match r with
  | Some (s, rest) => Some (String c s, rest)
  | None => None
  end.

(** [scanstring], entered after the opening quote: the decoded string
    and the text after the closing quote.  A raw control character is
    an error in strict mode. *)
Fixpoint scanstring (l : list ascii) : option (string * list ascii) :=
  match l with
  | [] => None
  | c :: rest =>
      if Ascii.eqb c quote then Some (EmptyString, rest)
      else if Ascii.eqb c backslash then
        match rest with
        | [] => None
        | e :: rest1 =>
            if Ascii.eqb e "u"%char then
              match rest1 with
              | h1 :: h2 :: h3 :: h4 :: rest2 =>
                  match hex4 h1 h2 h3 h4 with
                  | Some n =>
                      if n <? 256 then push (ascii_of_nat n) (scanstring rest2)
                      else None
                  | None => None
                  end
              | _ => None
              end
            else
              match unescape e with
              | Some c' => push c' (scanstring rest1)
              | None => None
              end
        end
      else if nat_of_ascii c <? 32 then None
      else push c (scanstring rest)
  end.

(** The [while True] loop of [JSONObject], entered after the opening
    quote of a key; [fuel] bounds the number of members read. *)
Fixpoint scan_members (fuel : nat) (l : list ascii)
    (pairs : list (string * string))
    : option (list (string * string) * list ascii) :=
  match fuel with
  | 0 => None
  | S fuel' =>
      match scanstring l with
      | None => None
      | Some (key, l1) =>
          match skip_ws l1 with
          | c1 :: l2 =>
              if Ascii.eqb c1 ":"%char then
                match skip_ws l2 with
                | c2 :: l3 =>
                    if Ascii.eqb c2 quote then
                      match scanstring l3 with
                      | None => None
                      | Some (value, l4) =>
                          match skip_ws l4 with
                          | c3 :: l5 =>
                              if Ascii.eqb c3 "}"%char
                              then Some (pairs ++ [(key, value)], l5)
                              else if Ascii.eqb c3 ","%char then
                                match skip_ws l5 with
                                | c4 :: l6 =>
                                    if Ascii.eqb c4 quote
                                    then scan_members fuel' l6
                                           (pairs ++ [(key, value)])
                                    else None
                                | [] => None
                                end
                              else None
                          | [] => None
                          end
                      end
                    else None
                | [] => None
                end
              else None
          | [] => None
          end
      end
  end.

(** [JSONObject], entered after the opening brace. *)
Definition scan_object (l : list ascii) : option (pydict * list ascii) :=
  match skip_ws l with
  | c :: l1 =>
      if Ascii.eqb c "}"%char then Some ([], l1)
      else if Ascii.eqb c quote then
        match scan_members (length l1) l1 [] with
        | Some (pairs, l2) => Some (PyDict.of_pairs pairs, l2)
        | None => None
        end
      else None
  | [] => None
  end.

(** The [while True] loop of [JSONArray], entered at the first
    character of an element; [fuel] bounds the number of elements. *)
Fixpoint scan_elements (fuel : nat) (l : list ascii) (values : list pydict)
    : option (list pydict * list ascii) :=
  match fuel with
  | 0 => None
  | S fuel' =>
      match l with
      | c :: l1 =>
          if Ascii.eqb c "{"%char then
            match scan_object l1 with
            | None => None
            | Some (row, l2) =>
                match skip_ws l2 with
                | c2 :: l3 =>
                    if Ascii.eqb c2 "]"%char then Some (values ++ [row], l3)
                    else if Ascii.eqb c2 ","%char
                    then scan_elements fuel' (skip_ws l3) (values ++ [row])
                    else None
                | [] => None
                end
            end
          else None
      | [] => None
      end
  end.

(** [JSONArray], entered after the opening bracket. *)
Definition scan_array (l : list ascii) : option (list pydict * list ascii) :=
  match skip_ws l with
  | c :: l1 =>
      if Ascii.eqb c "]"%char then Some ([], l1)
      else scan_elements (length l) (skip_ws l) []
  | [] => None
  end.

(** [json.load(f)]: leading whitespace, one array, trailing
    whitespace, and nothing after it. *)
Definition load (text : string) : option (list pydict) :=
  match skip_ws (list_ascii_of_string text) with
  | c :: l1 =>
      if Ascii.eqb c "["%char then
        match scan_array l1 with
        | Some (data, l2) =>
            match skip_ws l2 with
            | [] => Some data
            | _ :: _ => None
            end
        | None => None
        end
      else None
  | [] => None
  end.

End Json.

(** ** The world outside the process *)

(** A [messagebox] call: its title and its text. *)
Inductive dialog : Type :=
| MsgInfo (title text : string)
| MsgWarning (title text : string)
| MsgError (title text : string).

(** - [data_file]: the content of [DATA_FILE], [None] while
      [os.path.exists(DATA_FILE)] is false;
    - [git_dir]: [os.path.exists(".git")];
    - [subprocess_runs]: the argument vectors given to
      [subprocess.run], oldest first;
    - [clock], [ticks]: the [n]-th reading of
      [datetime.now().strftime("%Y-%m-%d %H:%M:%S")] is [clock n], and
      [ticks] readings were taken so far;
    - [dialogs]: the message boxes shown, oldest first;
    - [exported]: the exports that ran to their end, as
      (path, format), oldest first; a file that an encoder opened and
      then failed on is not tracked. *)
Record World : Type := mkWorld {
  data_file : option string;
  git_dir : bool;
  subprocess_runs : list (list string);
  clock : nat → string;
  ticks : nat;
  dialogs : list dialog;
  exported : list (string * string)
}.

(** [datetime.now().strftime("%Y-%m-%d %H:%M:%S")] *)
Definition now (w : World) : string * World :=
  (clock w (ticks w),
   mkWorld (data_file w) (git_dir w) (subprocess_runs w) (clock w)
     (S (ticks w)) (dialogs w) (exported w)).

Definition show (d : dialog) (w : World) : World :=
  mkWorld (data_file w) (git_dir w) (subprocess_runs w) (clock w)
    (ticks w) (dialogs w ++ [d]) (exported w).

Definition write_data_file (text : string) (w : World) : World :=
  mkWorld (Some text) (git_dir w) (subprocess_runs w) (clock w)
    (ticks w) (dialogs w) (exported w).

Definition write_export (file_path ext : string) (w : World) : World :=
  mkWorld (data_file w) (git_dir w) (subprocess_runs w) (clock w)
    (ticks w) (dialogs w) (exported w ++ [(file_path, ext)]).

(** [git_commit(file_path, message)] (lines 22-25). *)
Definition git_commit (file_path message : string) (w : World) : World :=
  if git_dir w then
    mkWorld (data_file w) true
      (subprocess_runs w
       ++ [["git"; "add"; file_path]; ["git"; "commit"; "-m"; message]])
      (clock w) (ticks w) (dialogs w) (exported w)
  else w.

(** ** The state of [InventoryApp] *)

(** - [full_data], [columns]: the attributes of the same name;
    - [search_var], [tenant_filter], [project_filter]: the content of
      the three [StringVar]s;
    - [tree]: the value tuples of the [Treeview], top to bottom. *)
Record App : Type := mkApp {
  full_data : list pydict;
  columns : list string;
  search_var : string;
  tenant_filter : string;
  project_filter : string;
  tree : list (list string)
}.

(** The keys of the [filetypes] dict of [export_data]. *)
Definition filetypes : list string := ["json"; "html"; "txt"; "xlsx"].

Section Session.

(** [current_user], fixed at start-up (line 17). *)
Variable current_user : string.

(** [current_user == ADMIN or row.get(TENANT_FIELD) == current_user]
    (lines 227 and 249). *)
Definition authorized (row : pydict) : bool :=
  bool_decide (current_user = ADMIN)
  || bool_decide (PyDict.get row TENANT_FIELD = Some current_user).

(** *** Access scope (lines 56-58 of [get_filtered_data]) *)

(** [[row for row in all_data if row.get(TENANT_FIELD) == current_user]] *)
Fixpoint own_rows (all_data : list pydict) : list pydict :=
  match all_data with
  | [] => []
  | row :: rest =>
      if bool_decide (PyDict.get row TENANT_FIELD = Some current_user)
      then row :: own_rows rest
      else own_rows rest
  end.

Definition scope (all_data : list pydict) : list pydict :=
  if bool_decide (current_user = ADMIN) then all_data
  else own_rows all_data.

(** *** The merge loop of [entry_window.save] (lines 225-231)

    The [for ... else] loop: the first row whose displayed tuple
    equals a truthy [existing_entry] ends the loop ([break]), replaced
    only when the user is authorized; when the loop runs to its end
    the [else] branch appends. *)
Fixpoint merge_entry (columns : list string)
    (existing_entry : option (list string)) (entry_data : pydict)
    (rows : list pydict) : list pydict :=
  match rows with
  | [] => [entry_data]
  | row :: rest =>
      if truthy existing_entry
         && bool_decide (Some (row_values columns row) = existing_entry)
      then (if authorized row then entry_data :: rest else row :: rest)
      else row :: merge_entry columns existing_entry entry_data rest
  end.

(** *** The filtering loop of [delete_entry] (lines 246-251) *)
Fixpoint delete_rows (columns : list string)
    (values_to_delete : list (list string)) (rows : list pydict)
    : list pydict :=
  match rows with
  | [] => []
  | row :: rest =>
      if bool_decide (row_values columns row ∈ values_to_delete)
         && authorized row
      then delete_rows columns values_to_delete rest
      else row :: delete_rows columns values_to_delete rest
  end.


(** *** Persistence (lines 28-51) *)

(** [save_data(data)] *)
Definition save_data (data : list pydict) (w : World) : World :=
  git_commit DATA_FILE ("Data updated by " +:+ current_user)
    (write_data_file (Json.dump_indent2 data) w).

(** The default of [row.get(TENANT_FIELD, ...)] on line 35. *)
Definition tenant_default : string :=
  if bool_decide (current_user ≠ ADMIN) then current_user else "".

(** The body of the [for row in data] loop of
    [initialize_from_excel] (lines 34-35); [t] is the clock reading. *)
Definition stamp_row (t : string) (row : pydict) : pydict :=
  let row1 := PyDict.set row LAST_UPDATED_FIELD t in
  PyDict.set row1 TENANT_FIELD
    (PyDict.get_default row1 TENANT_FIELD tenant_default).

(** The loop itself: one clock reading per row. *)
Fixpoint stamp_rows (rows : list pydict) (w : World)
    : list pydict * World :=
  match rows with
  | [] => ([], w)
  | row :: rest =>
      let '(t, w1) := now w in
      let '(rest', w2) := stamp_rows rest w1 in
      (stamp_row t row :: rest', w2)
  end.

(** [initialize_from_excel()]; [excel] is [None] when the file dialog
    is cancelled, otherwise the rows
    [pd.read_excel(excel_file).to_dict(orient="records")]. *)
Definition initialize_from_excel (excel : option (list pydict)) (w : World)
    : list pydict * World :=
  match excel with
  | Some rows =>
      let '(data, w1) := stamp_rows rows w in
      (data, save_data data w1)
  | None => ([], w)
  end.

(** [load_data()]; the result is [None] when [json.load] raises or
    the document is outside the model. *)
Definition load_data (excel : option (list pydict)) (w : World)
    : option (list pydict) * World :=
  match data_file w with
  | None =>
      let '(data, w1) := initialize_from_excel excel w in (Some data, w1)
  | Some text => (Json.load text, w)
  end.

(** [get_filtered_data()] *)
Definition get_filtered_data (excel : option (list pydict)) (w : World)
    : option (list pydict) * World :=
  let '(all_data, w1) := load_data excel w in
  (scope <$> all_data, w1).

(** *** The display filter (lines 169-184) *)

(** [tenant_match] (line 178). *)
Definition tenant_match (tenant_query : string) (row : pydict) : bool :=
  (bool_decide (current_user = ADMIN)
   && (bool_decide (tenant_query = "")
       || bool_decide
            (PyStr.lower (PyDict.get_default row TENANT_FIELD "")
             = tenant_query)))
  || bool_decide (PyDict.get row TENANT_FIELD = Some current_user).

(** [project_match] (line 179). *)
Definition project_match (project_query : string) (row : pydict) : bool :=
  PyStr.contains project_query
    (PyStr.lower (PyDict.get_default row PROJECT_FIELD "")).

(** The condition of line 180. *)
Definition row_shown (query tenant_query project_query : string)
    (row : pydict) : bool :=
  PyStr.contains query (PyStr.lower (Json.dumps row))
  && tenant_match tenant_query row
  && project_match project_query row.

(** The loop that builds [filtered] (lines 175-181). *)
Fixpoint filtered_rows (query tenant_query project_query : string)
    (rows : list pydict) : list pydict :=
  match rows with
  | [] => []
  | row :: rest =>
      if row_shown query tenant_query project_query row
      then row :: filtered_rows query tenant_query project_query rest
      else filtered_rows query tenant_query project_query rest
  end.

(** [filtered] for the content of the three filter boxes
    (lines 170-172 normalise them). *)
Definition displayed_rows (search tenant project : string)
    (rows : list pydict) : list pydict :=
  filtered_rows (PyStr.lower search)
    (PyStr.lower (PyStr.strip tenant))
    (PyStr.lower (PyStr.strip project)) rows.

(** [refresh_table()] *)
Definition refresh_table (app : App) : App :=
  mkApp (full_data app) (columns app) (search_var app) (tenant_filter app)
    (project_filter app)
    (map (row_values (columns app))
       (displayed_rows (search_var app) (tenant_filter app)
          (project_filter app) (full_data app))).

(** *** Edit-session commit: [save] of [entry_window] (lines 218-235) *)

(** [entry_data] after lines 219-223; [typed col] is the content of
    the entry box of column [col] and [stamp] the clock reading. *)
Definition entry_record (columns : list string) (typed : string → string)
    (stamp : string) : pydict :=
  let entries := PyDict.of_pairs (map (λ col, (col, typed col)) columns) in
  let d0 := foldl (λ d kv, PyDict.set d kv.1 kv.2) [] entries in
  let d1 := PyDict.set d0 LAST_UPDATED_FIELD stamp in
  if bool_decide (current_user ≠ ADMIN)
  then PyDict.set d1 TENANT_FIELD current_user
  else d1.

Definition entry_window_save (existing_entry : option (list string))
    (typed : string → string) (app : App) (w : World) : App * World :=
  let '(stamp, w1) := now w in
  let entry_data := entry_record (columns app) typed stamp in
  let new_full :=
    merge_entry (columns app) existing_entry entry_data (full_data app) in
  let w2 := save_data new_full w1 in
  (refresh_table
     (mkApp new_full (columns app) (search_var app) (tenant_filter app)
        (project_filter app) (tree app)),
   w2).

(** *** [delete_entry] (lines 239-255); [selected] holds the value
    tuples of the selected table items. *)
Definition delete_entry (selected : list (list string)) (app : App)
    (w : World) : App * World :=
  match selected with
  | [] => (app, show (MsgWarning "Delete" "No item selected") w)
  | _ :: _ =>
      let new_data := delete_rows (columns app) selected (full_data app) in
      (refresh_table
         (mkApp new_data (columns app) (search_var app) (tenant_filter app)
            (project_filter app) (tree app)),
       save_data new_data w)
  end.

(** *** [export_data] (lines 67-105)

    [export_type] is the answer to the format prompt ([None] when it
    is cancelled), [file_path] the answer of the save dialog (empty
    when cancelled), and [encoder_error] the message of the exception
    the encoder raises, if it raises one; in that case the error box
    is shown and what the encoder left at [file_path] is not part of
    the model.  [file_path] is taken to name another file than
    [DATA_FILE].  The prompts are answered only when the function
    reaches them. *)
Definition export_data (data : list pydict) (export_type : option string)
    (file_path : string) (encoder_error : option string) (w : World)
    : World :=
  match data with
  | [] => show (MsgInfo "Export" "No data to export.") w
  | _ :: _ =>
      match export_type with
      | None => w
      | Some "" => w
      | Some answer =>
          let ext := PyStr.lower answer in
          if bool_decide (ext ∈ filetypes) then
            match file_path with
            | "" => w
            | _ =>
                match encoder_error with
                | None =>
                    show (MsgInfo "Export" ("Data exported to " +:+ file_path))
                      (write_export file_path ext w)
                | Some e => show (MsgError "Export Error" e) w
                end
            end
          else show (MsgError "Export Error" ("Unsupported format: " +:+ ext)) w
      end
  end.

End Session.

(** ** The remaining views of [q.py] *)

(** The order of Python strings: by code points, a proper prefix
    first. *)
Definition str_le (a b : string) : Prop := String.leb a b = true.

Definition str_le_dec (a b : string) : Decision (str_le a b) :=
  decide (String.leb a b = true).

(** [sorted(set(xs))]: the distinct elements in increasing order.  The
    iteration order of the set does not show in the result. *)
Definition sorted_set (xs : list string) : list string :=
  @merge_sort string str_le str_le_dec (remove_dups xs).

(** Truthiness of [row.get(key)]: present and not the empty string. *)
Definition has_value (row : pydict) (key : string) : bool :=
  match PyDict.get row key with
  | Some (String _ _) => true
  | Some EmptyString => false
  | None => false
  end.

(** The generator [row.get(key, "") for row in rows if keep(row)]. *)
Fixpoint field_values (keep : pydict → bool) (key : string)
    (rows : list pydict) : list string :=
  match rows with
  | [] => []
  | row :: rest =>
      if keep row
      then PyDict.get_default row key "" :: field_values keep key rest
      else field_values keep key rest
  end.

(** [get_unique_values(key)] (lines 166-167), over [self.full_data]. *)
Definition get_unique_values (full_data : list pydict) (key : string)
    : list string :=
  sorted_set (field_values (λ row, has_value row key) key full_data).

(** [any(query in str(value).lower() for value in row.values())]
    (line 163). *)
Definition any_value_contains (query : string) (row : pydict) : bool :=
  existsb (λ value, PyStr.contains query (PyStr.lower value))
    (PyDict.values row).

(** [[row[col] for col in columns]] (line 164): [None] stands for the
    [KeyError] of a missing column. *)
Definition row_items (columns : list string) (row : pydict)
    : option (list string) :=
  mapM (PyDict.get row) columns.

(** The loop of [update_treeview] (lines 162-164) over [self.data]:
    the tuples inserted, or [None] when a [KeyError] ends it. *)
Fixpoint treeview_rows (query : string) (columns : list string)
    (data : list pydict) : option (list (list string)) :=
  match data with
  | [] => Some []
  | row :: rest =>
      if any_value_contains query row then
        match row_items columns row with
        | None => None
        | Some values => cons values <$> treeview_rows query columns rest
        end
      else treeview_rows query columns rest
  end.

(** [update_treeview()] (lines 159-164); [search] is the content of
    the search box, lower-cased and then stripped on line 160. *)
Definition update_treeview (search : string) (columns : list string)
    (data : list pydict) : option (list (list string)) :=
  treeview_rows (PyStr.strip (PyStr.lower search)) columns data.

(** [columns.index(col)]: the first position of [col]; [None] stands
    for the [ValueError] of a missing element. *)
Fixpoint index_of (col : string) (columns : list string) : option nat :=
  match columns with
  | [] => None
  | c :: rest => if decide (c = col) then Some 0 else S <$> index_of col rest
  end.

(** The initial content of the entry box of [col] (line 213):
    [existing_entry[self.columns.index(col)] if existing_entry else ""];
    [None] stands for the [IndexError] of a tuple that is too short.
    [existing_entry] holds the elements as texts, the way
    [tk.StringVar] shows them: it is the tuple that the table hands
    back on line 200, which need not be the strings of the stored
    row. *)
Definition entry_window_seed (existing_entry : option (list string))
    (columns : list string) (col : string) : option string :=
  if truthy existing_entry then
    match existing_entry with
    | Some values =>
        match index_of col columns with
        | Some i => values !! i
        | None => None
        end
    | None => None
    end
  else Some "".

(** The columns of an empty store (line 122). *)
Definition default_columns : list string :=
  ["Item"; "Quantity"; "Description"; PROJECT_FIELD; TENANT_FIELD;
   LAST_UPDATED_FIELD].

Section Views.

Variable current_user : string.

(** [get_available_projects(data)] (lines 60-63). *)
Definition get_available_projects (data : list pydict) : list string :=
  if bool_decide (current_user = ADMIN) then
    sorted_set
      (field_values (λ row, has_value row PROJECT_FIELD) PROJECT_FIELD data)
  else
    sorted_set
      (field_values
         (λ row, bool_decide (PyDict.get row TENANT_FIELD = Some current_user)
                 && has_value row PROJECT_FIELD)
         PROJECT_FIELD data).

(** [InventoryApp.__init__] (lines 108-149), without the widgets:
    [excel1] and [excel2] answer the import dialogs of the two
    [load_data] calls (lines 113 and 121).  The result is [None] when
    [json.load] or [update_treeview] raises. *)
Definition InventoryApp_init (excel1 excel2 : option (list pydict))
    (w : World) : option App * World :=
  let '(data, w1) := get_filtered_data current_user excel1 w in
  match data with
  | None => (None, w1)
  | Some data =>
      let '(full, w2) := load_data current_user excel2 w1 in
      match full with
      | None => (None, w2)
      | Some full_data =>
          let columns :=
            match full_data with
            | row :: _ => PyDict.keys row
            | [] => default_columns
            end in
          match update_treeview "" columns data with
          | None => (None, w2)
          | Some tree0 =>
              (Some (refresh_table current_user
                       (mkApp full_data columns ""
                          (tenant_default current_user) "" tree0)),
               w2)
          end
      end
  end.

End Views.

(** ** Persistence over all Python strings

    The store and the [json] codec again, with a Python [str] as the
    sequence of its code points, so that characters above 255 and
    surrogates are there: [encode_basestring_ascii] writes a code point
    above U+FFFF as a surrogate pair of two [\uXXXX] escapes, and
    [scanstring] joins a high surrogate escape that is followed by a
    low surrogate escape into one code point.  The text of the file
    stays a [string]: the encoder writes ASCII only. *)

Module Uni.

(** A Python [str]: its code points, each below [0x110000]. *)
Definition ustr : Type := list N.

(** A Python dict with [str] keys and values, in insertion order. *)
Definition udict : Type := list (ustr * ustr).

(** A string of the 8-bit model as a Python [str]. *)
Definition of_string (s : string) : ustr :=
  map N_of_ascii (list_ascii_of_string s).

Fixpoint get (d : udict) (k : ustr) : option ustr :=
  match d with
  | [] => None
  | (k', v) :: rest => if decide (k' = k) then Some v else get rest k
  end.

Definition get_default (d : udict) (k dflt : ustr) : ustr :=
  default dflt (get d k).

Fixpoint set (d : udict) (k v : ustr) : udict :=
  match d with
  | [] => [(k, v)]
  | (k', v') :: rest =>
      if decide (k' = k) then (k, v) :: rest else (k', v') :: set rest k v
  end.

Definition keys (d : udict) : list ustr := d.*1.

Definition of_pairs (ps : list (ustr * ustr)) : udict :=
  foldl (λ d kv, set d kv.1 kv.2) [] ps.

(** *** Encoder *)

Definition is_high (c : N) : bool := ((55296 <=? c) && (c <=? 56319))%N.
Definition is_low (c : N) : bool := ((56320 <=? c) && (c <=? 57343))%N.

Definition hex_digit (d : N) : ascii :=
  if (d <? 10)%N then ascii_of_N (48 + d) else ascii_of_N (87 + d).

(** ['\\u{0:04x}'.format(n)] for [n] below [0x10000]. *)
Definition u4 (n : N) : list ascii :=
  [Json.backslash; "u"%char;
   hex_digit ((n / 4096) mod 16); hex_digit ((n / 256) mod 16);
   hex_digit ((n / 16) mod 16); hex_digit (n mod 16)]%N.

(** The replacement of one character in [encode_basestring_ascii]; a
    code point [c] from [0x10000] on becomes the pair
    [0xd800 | ((c - 0x10000) >> 10) & 0x3ff] and
    [0xdc00 | (c - 0x10000) & 0x3ff], written here with division and
    remainder. *)
Definition escape_char (c : N) : list ascii :=
  if (c =? 34)%N then [Json.backslash; Json.quote]
  else if (c =? 92)%N then [Json.backslash; Json.backslash]
  else if (c =? 8)%N then [Json.backslash; "b"%char]
  else if (c =? 12)%N then [Json.backslash; "f"%char]
  else if (c =? 10)%N then [Json.backslash; "n"%char]
  else if (c =? 13)%N then [Json.backslash; "r"%char]
  else if (c =? 9)%N then [Json.backslash; "t"%char]
  else if ((32 <=? c) && (c <=? 126))%N then [ascii_of_N c]
  else if (c <? 65536)%N then u4 c
  else u4 (55296 + ((c - 65536) / 1024) mod 1024)
       ++ u4 (56320 + (c - 65536) mod 1024).

Fixpoint escape (s : ustr) : list ascii :=
  match s with
  | [] => []
  | c :: rest => escape_char c ++ escape rest
  end.

Definition encode_string (s : ustr) : list ascii :=
  Json.quote :: escape s ++ [Json.quote].

Definition encode_member (key_separator : list ascii)
    (kv : ustr * ustr) : list ascii :=
  encode_string kv.1 ++ key_separator ++ encode_string kv.2.

(** [_iterencode_dict] and [_iterencode_list] with an indent, as in
    [Json.encode_dict] and [Json.encode_list]. *)
Definition encode_dict (ind item_separator key_separator : list ascii)
    (level : nat) (d : udict) : list ascii :=
  match d with
  | [] => Json.chars "{}"
  | _ :: _ =>
      Json.chars "{" ++ Json.newline_indent ind (S level)
      ++ Json.join (item_separator ++ Json.newline_indent ind (S level))
           (map (encode_member key_separator) d)
      ++ Json.newline_indent ind level ++ Json.chars "}"
  end.

Definition encode_list (ind item_separator key_separator : list ascii)
    (level : nat) (rows : list udict) : list ascii :=
  match rows with
  | [] => Json.chars "[]"
  | _ :: _ =>
      Json.chars "[" ++ Json.newline_indent ind (S level)
      ++ Json.join (item_separator ++ Json.newline_indent ind (S level))
           (map (encode_dict ind item_separator key_separator (S level)) rows)
      ++ Json.newline_indent ind level ++ Json.chars "]"
  end.

(** [json.dump(data, f, indent=2)] *)
Definition dump_indent2 (data : list udict) : string :=
  string_of_list_ascii
    (encode_list (Json.chars "  ") (Json.chars ",") (Json.chars ": ") 0 data).

(** *** Decoder *)

Definition hex_value (c : ascii) : option N :=
  let n := N_of_ascii c in
  if ((48 <=? n) && (n <=? 57))%N then Some (n - 48)%N
  else if ((97 <=? n) && (n <=? 102))%N then Some (n - 87)%N
  else if ((65 <=? n) && (n <=? 70))%N then Some (n - 55)%N
  else None.

Definition hex4 (h1 h2 h3 h4 : ascii) : option N :=
  match hex_value h1, hex_value h2, hex_value h3, hex_value h4 with
  | Some a, Some b, Some c, Some d =>
      Some (((a * 16 + b) * 16 + c) * 16 + d)%N
  | _, _, _, _ => None
  end.

(** [0x10000 + (((uni - 0xd800) << 10) | (uni2 - 0xdc00))] *)
Definition join_surrogates (hi lo : N) : N :=
  (65536 + (hi - 55296) * 1024 + (lo - 56320))%N.

Definition push (c : N) (r : option (ustr * list ascii))
    : option (ustr * list ascii) :=
  match r with
  | Some (s, rest) => Some (c :: s, rest)
  | None => None
  end.

(** [scanstring] in strict mode, entered after the opening quote.
    After a [\uXXXX] escape of a high surrogate, a following [\u]
    escape is read as well: a low surrogate joins the first into one
    code point, anything else is left for the next round. *)
Fixpoint scanstring (l : list ascii) : option (ustr * list ascii) :=
  match l with
  | [] => None
  | c :: rest =>
      if Ascii.eqb c Json.quote then Some ([], rest)
      else if Ascii.eqb c Json.backslash then
        match rest with
        | [] => None
        | e :: rest1 =>
            if Ascii.eqb e "u"%char then
              match rest1 with
              | h1 :: h2 :: h3 :: h4 :: rest2 =>
                  match hex4 h1 h2 h3 h4 with
                  | Some n =>
                      if is_high n then
                        match rest2 with
                        | b :: u :: g1 :: g2 :: g3 :: g4 :: rest4 =>
                            if Ascii.eqb b Json.backslash
                               && Ascii.eqb u "u"%char
                            then
                              match hex4 g1 g2 g3 g4 with
                              | Some n2 =>
                                  if is_low n2
                                  then push (join_surrogates n n2)
                                         (scanstring rest4)
                                  else push n (scanstring rest2)
                              | None => None
                              end
                            else push n (scanstring rest2)
                        | _ => push n (scanstring rest2)
                        end
                      else push n (scanstring rest2)
                  | None => None
                  end
              | _ => None
              end
            else
              match Json.unescape e with
              | Some c' => push (N_of_ascii c') (scanstring rest1)
              | None => None
              end
        end
      else if (N_of_ascii c <? 32)%N then None
      else push (N_of_ascii c) (scanstring rest)
  end.

(** The loops of [JSONObject] and [JSONArray], as in [Json]. *)
Fixpoint scan_members (fuel : nat) (l : list ascii)
    (pairs : list (ustr * ustr))
    : option (list (ustr * ustr) * list ascii) :=
  match fuel with
  | 0 => None
  | S fuel' =>
      match scanstring l with
      | None => None
      | Some (key, l1) =>
          match Json.skip_ws l1 with
          | c1 :: l2 =>
              if Ascii.eqb c1 ":"%char then
                match Json.skip_ws l2 with
                | c2 :: l3 =>
                    if Ascii.eqb c2 Json.quote then
                      match scanstring l3 with
                      | None => None
                      | Some (value, l4) =>
                          match Json.skip_ws l4 with
                          | c3 :: l5 =>
                              if Ascii.eqb c3 "}"%char
                              then Some (pairs ++ [(key, value)], l5)
                              else if Ascii.eqb c3 ","%char then
                                match Json.skip_ws l5 with
                                | c4 :: l6 =>
                                    if Ascii.eqb c4 Json.quote
                                    then scan_members fuel' l6
                                           (pairs ++ [(key, value)])
                                    else None
                                | [] => None
                                end
                              else None
                          | [] => None
                          end
                      end
                    else None
                | [] => None
                end
              else None
          | [] => None
          end
      end
  end.

Definition scan_object (l : list ascii) : option (udict * list ascii) :=
  match Json.skip_ws l with
  | c :: l1 =>
      if Ascii.eqb c "}"%char then Some ([], l1)
      else if Ascii.eqb c Json.quote then
        match scan_members (length l1) l1 [] with
        | Some (pairs, l2) => Some (of_pairs pairs, l2)
        | None => None
        end
      else None
  | [] => None
  end.

Fixpoint scan_elements (fuel : nat) (l : list ascii) (values : list udict)
    : option (list udict * list ascii) :=
  match fuel with
  | 0 => None
  | S fuel' =>
      match l with
      | c :: l1 =>
          if Ascii.eqb c "{"%char then
            match scan_object l1 with
            | None => None
            | Some (row, l2) =>
                match Json.skip_ws l2 with
                | c2 :: l3 =>
                    if Ascii.eqb c2 "]"%char then Some (values ++ [row], l3)
                    else if Ascii.eqb c2 ","%char
                    then scan_elements fuel' (Json.skip_ws l3)
                           (values ++ [row])
                    else None
                | [] => None
                end
            end
          else None
      | [] => None
      end
  end.

Definition scan_array (l : list ascii) : option (list udict * list ascii) :=
  match Json.skip_ws l with
  | c :: l1 =>
      if Ascii.eqb c "]"%char then Some ([], l1)
      else scan_elements (length l) (Json.skip_ws l) []
  | [] => None
  end.

(** [json.load(f)] on a file that holds an array of objects with
    string values; [None] when it raises or the document has another
    shape. *)
Definition load (text : string) : option (list udict) :=
  match Json.skip_ws (list_ascii_of_string text) with
  | c :: l1 =>
      if Ascii.eqb c "["%char then
        match scan_array l1 with
        | Some (data, l2) =>
            match Json.skip_ws l2 with
            | [] => Some data
            | _ :: _ => None
            end
        | None => None
        end
      else None
  | [] => None
  end.

(** *** [save_data], [initialize_from_excel] and [load_data]
    (lines 28-51) on such records *)

Section Store.

Variable current_user : string.

Definition save_data (data : list udict) (w : World) : World :=
  git_commit DATA_FILE ("Data updated by " +:+ current_user)
    (write_data_file (dump_indent2 data) w).

Definition stamp_row (t : string) (row : udict) : udict :=
  let row1 := set row (of_string LAST_UPDATED_FIELD) (of_string t) in
  set row1 (of_string TENANT_FIELD)
    (get_default row1 (of_string TENANT_FIELD)
       (of_string (tenant_default current_user))).

Fixpoint stamp_rows (rows : list udict) (w : World) : list udict * World :=
  match rows with
  | [] => ([], w)
  | row :: rest =>
      let '(t, w1) := now w in
      let '(rest', w2) := stamp_rows rest w1 in
      (stamp_row t row :: rest', w2)
  end.

Definition initialize_from_excel (excel : option (list udict)) (w : World)
    : list udict * World :=
  match excel with
  | Some rows =>
      let '(data, w1) := stamp_rows rows w in
      (data, save_data data w1)
  | None => ([], w)
  end.

Definition load_data (excel : option (list udict)) (w : World)
    : option (list udict) * World :=
  match data_file w with
  | None =>
      let '(data, w1) := initialize_from_excel excel w in (Some data, w1)
  | Some text => (load text, w)
  end.

End Store.

(** *** Vocabulary *)

(** No high surrogate of [s] is followed at once by a low
    surrogate. *)
Fixpoint no_surrogate_pair (s : ustr) : Prop :=
  match s with
  | [] => True
  | c :: rest =>
      match rest with
      | [] => True
      | c' :: _ => ¬ (is_high c = true ∧ is_low c' = true)
      end
      ∧ no_surrogate_pair rest
  end.

(** A Python [str] that [json] reads back as written. *)
Definition stable (s : ustr) : Prop :=
  Forall (λ c, (c < 1114112)%N) s ∧ no_surrogate_pair s.

(** A record whose keys are distinct and whose strings are
    stable. *)
Definition wf (d : udict) : Prop :=
  NoDup (keys d) ∧ Forall (λ kv, stable kv.1 ∧ stable kv.2) d.

End Uni.

(** ** Vocabulary of the properties *)

(** [row], at index [i], is the first row of [rows] whose displayed
    tuple is [target]. *)
Definition first_match (columns : list string) (target : list string)
    (rows : list pydict) (i : nat) (row : pydict) : Prop :=
  rows !! i = Some row
  ∧ row_values columns row = target
  ∧ ∀ j r, j < i → rows !! j = Some r → row_values columns r ≠ target.

(** [current_user] may replace or delete [row]: the user is the
    administrator or the row carries the user's name as tenant. *)
Definition may_act (current_user : string) (row : pydict) : Prop :=
  current_user = ADMIN ∨ PyDict.get row TENANT_FIELD = Some current_user.

(** The order of two time stamps of the form [%Y-%m-%d %H:%M:%S]:
    the order of the strings. *)
Definition stamp_le (a b : string) : Prop := String.leb a b = true.

(** A clock that never runs backwards. *)
Definition clock_monotone (w : World) : Prop :=
  ∀ i j, i ≤ j → stamp_le (clock w i) (clock w j).

(** A printable ASCII character: code point 32 to 126. *)
Definition printable (c : ascii) : bool :=
  (32 <=? nat_of_ascii c) && (nat_of_ascii c <=? 126).

(** The characters of a string. *)
Definition chars_of (s : string) : list ascii := list_ascii_of_string s.

(** * Properties *)

(** ** Dictionaries *)

Lemma get_set_eq (d : pydict) (k v : string) :
  PyDict.get (PyDict.set d k v) k = Some v.
Proof.
  induction d as [|[k' v'] d IH]; simpl.
  - by rewrite decide_True.
  - destruct (decide (k' = k)) as [->|Hne]; simpl.
    + by rewrite decide_True.
    + by rewrite decide_False.
Qed.

Lemma get_set_ne (d : pydict) (k k' v : string) :
  k ≠ k' → PyDict.get (PyDict.set d k v) k' = PyDict.get d k'.
Proof.
  intros Hne. induction d as [|[k0 v0] d IH]; simpl.
  - by rewrite decide_False.
  - destruct (decide (k0 = k)) as [->|Hk]; simpl.
    + by rewrite !decide_False.
    + destruct (decide (k0 = k')); done.
Qed.

Lemma set_fresh (d : pydict) (k v : string) :
  k ∉ PyDict.keys d → PyDict.set d k v = d ++ [(k, v)].
Proof.
  unfold PyDict.keys. induction d as [|[k' v'] d IH]; simpl; [done|].
  intros Hnin. apply not_elem_of_cons in Hnin as [Hne Hnin].
  rewrite decide_False by done. by rewrite IH.
Qed.

Lemma foldl_set_nodup (ps acc : list (string * string)) :
  NoDup (PyDict.keys (acc ++ ps)) →
  foldl (λ d kv, PyDict.set d kv.1 kv.2) acc ps = acc ++ ps.
Proof.
  revert acc. induction ps as [|[k v] ps IH]; intros acc Hnd; simpl.
  - by rewrite app_nil_r.
  - assert (Hk : k ∉ PyDict.keys acc).
    { unfold PyDict.keys in *. rewrite fmap_app in Hnd.
      apply NoDup_app in Hnd as (_ & Hdisj & Hnd).
      intros Hin. apply (Hdisj _ Hin). simpl. left. }
    rewrite set_fresh by done.
    rewrite IH; rewrite <- app_assoc; done.
Qed.

Lemma of_pairs_wf (d : pydict) : PyDict.wf d → PyDict.of_pairs d = d.
Proof. intros Hwf. unfold PyDict.of_pairs. by rewrite foldl_set_nodup. Qed.

(** ** The JSON encoder and decoder *)

Section JsonRoundTrip.

Import Json.

Lemma scanstring_escape_char (c : ascii) (tl : list ascii) :
  scanstring (escape_char c ++ tl) = push c (scanstring tl).
Proof.
  destruct c as [[] [] [] [] [] [] [] []]; reflexivity.
Qed.

Lemma scanstring_escape (s : string) (tl : list ascii) :
  scanstring (escape s ++ quote :: tl) = Some (s, tl).
Proof.
  induction s as [|c s IH]; [done|].
  simpl escape. rewrite <- app_assoc, scanstring_escape_char, IH. done.
Qed.

Lemma skip_ws_app (ws tl : list ascii) :
  forallb is_ws ws = true → skip_ws (ws ++ tl) = skip_ws tl.
Proof.
  induction ws as [|c ws IH]; [done|]. simpl.
  intros [Hc Hws]%andb_true_iff. rewrite Hc. by apply IH.
Qed.

Lemma newline_indent_ws (level : nat) :
  forallb is_ws (newline_indent (chars "  ") level) = true.
Proof.
  unfold newline_indent. simpl. induction level as [|level IH]; [done|].
  simpl. exact IH.
Qed.

Lemma length_join (sep : list ascii) (items : list (list ascii)) :
  Forall (λ x, 1 ≤ length x) items → length items ≤ length (join sep items).
Proof.
  induction items as [|x items IH]; [done|].
  intros [Hx Hitems]%Forall_cons. specialize (IH Hitems).
  destruct items as [|y items]; [done|].
  change (join sep (x :: y :: items)) with (x ++ sep ++ join sep (y :: items)).
  rewrite !length_app. simpl in *. lia.
Qed.

Lemma encode_member_scan (k v : string) (tl : list ascii) :
  ∃ body,
    encode_member (chars ": ") (k, v) ++ tl = quote :: body
    ∧ ∀ fuel pairs,
        scan_members (S fuel) body pairs
        = match skip_ws tl with
          | c3 :: l5 =>
              if Ascii.eqb c3 "}"%char then Some (pairs ++ [(k, v)], l5)
              else if Ascii.eqb c3 ","%char then
                match skip_ws l5 with
                | c4 :: l6 =>
                    if Ascii.eqb c4 quote
                    then scan_members fuel l6 (pairs ++ [(k, v)])
                    else None
                | [] => None
                end
              else None
          | [] => None
          end.
Proof.
  exists (escape k ++ quote :: ":"%char :: " "%char :: quote
          :: escape v ++ quote :: tl).
  split.
  - unfold encode_member, encode_string. simpl.
    rewrite <- !app_assoc. simpl. by rewrite <- !app_assoc.
  - intros fuel pairs. simpl scan_members.
    rewrite scanstring_escape. simpl. by rewrite scanstring_escape.
Qed.

Lemma scan_members_join (ps : list (string * string)) :
  ∀ (p : string * string) (pairs : list (string * string)) (fuel : nat)
    (ws1 ws2 tl : list ascii),
    forallb is_ws ws1 = true → forallb is_ws ws2 = true →
    length ps < fuel →
    ∃ body,
      join (","%char :: ws1) (map (encode_member (chars ": ")) (p :: ps))
      ++ ws2 ++ "}"%char :: tl
      = quote :: body
      ∧ scan_members fuel body pairs = Some (pairs ++ p :: ps, tl).
Proof.
  induction ps as [|p' ps IH]; intros [k v] pairs fuel ws1 ws2 tl Hws1 Hws2 Hfuel.
  - destruct (encode_member_scan k v (ws2 ++ "}"%char :: tl))
      as (body & Heq & Hscan).
    exists body. split; [exact Heq|].
    destruct fuel as [|fuel]; [lia|].
    rewrite Hscan, skip_ws_app by done. done.
  - destruct fuel as [|fuel]; [simpl in Hfuel; lia|].
    destruct (IH p' (pairs ++ [(k, v)]) fuel ws1 ws2 tl Hws1 Hws2)
      as (body' & Heq' & Hscan'); [simpl in Hfuel; lia|].
    destruct (encode_member_scan k v (","%char :: ws1 ++ quote :: body'))
      as (body & Heq & Hscan).
    exists body. split.
    + rewrite <- Heq, <- Heq'.
      change (map (encode_member (chars ": ")) ((k, v) :: p' :: ps))
        with (encode_member (chars ": ") (k, v)
              :: map (encode_member (chars ": ")) (p' :: ps)).
      change (join (","%char :: ws1)
                (encode_member (chars ": ") (k, v)
                 :: map (encode_member (chars ": ")) (p' :: ps)))
        with (encode_member (chars ": ") (k, v) ++ (","%char :: ws1)
              ++ join (","%char :: ws1)
                   (map (encode_member (chars ": ")) (p' :: ps))).
      rewrite <- !app_assoc. simpl. by rewrite <- !app_assoc.
    + rewrite Hscan. simpl. rewrite skip_ws_app by done. simpl.
      rewrite Hscan'. by rewrite <- app_assoc.
Qed.

Lemma encode_member_nonempty (p : string * string) :
  1 ≤ length (encode_member (chars ": ") p).
Proof. unfold encode_member, encode_string. simpl. lia. Qed.

Lemma scan_object_encode_dict (level : nat) (d : pydict) (tl : list ascii) :
  PyDict.wf d →
  ∃ body,
    encode_dict (Some (chars "  ")) (chars ",") (chars ": ") level d ++ tl
    = "{"%char :: body
    ∧ scan_object body = Some (d, tl).
Proof.
  intros Hwf. destruct d as [|p ps].
  - exists ("}"%char :: tl). done.
  - pose proof (newline_indent_ws (S level)) as Hws1.
    pose proof (newline_indent_ws level) as Hws2.
    unfold encode_dict.
    set (ws1 := newline_indent (chars "  ") (S level)) in *.
    set (ws2 := newline_indent (chars "  ") level) in *.
    assert (Hlen : length ps
                   < length (join (chars "," ++ ws1)
                               (map (encode_member (chars ": ")) (p :: ps)))).
    { eapply Nat.lt_le_trans; [|apply length_join].
      - rewrite length_map. cbn [length]. lia.
      - apply Forall_forall. intros x [q [-> _]]%list_elem_of_fmap.
        apply encode_member_nonempty. }
    destruct (scan_members_join ps p []
                (length (join (chars "," ++ ws1)
                           (map (encode_member (chars ": ")) (p :: ps))))
                ws1 ws2 tl Hws1 Hws2)
      as (body' & Heq & Hscan); [exact Hlen|].
    exists (ws1 ++ quote :: body'). split.
    + rewrite <- Heq.
      change (chars "{") with ["{"%char]. change (chars "}") with ["}"%char].
      change (chars "," ++ ws1) with (","%char :: ws1).
      by rewrite <- !app_assoc.
    + unfold scan_object. rewrite skip_ws_app by done. simpl.
      assert (Hfuel : ∃ extra,
                length body'
                = length (join (chars "," ++ ws1)
                            (map (encode_member (chars ": ")) (p :: ps)))
                  + extra).
      { exists (length ws2 + length tl).
        apply (f_equal length) in Heq. rewrite !length_app in Heq.
        cbn [length] in Heq.
        change (chars "," ++ ws1) with (","%char :: ws1). lia. }
      destruct Hfuel as (extra & Hfuel).
      destruct (scan_members_join ps p [] (length body') ws1 ws2 tl Hws1 Hws2)
        as (body'' & Heq'' & Hscan''); [lia|].
      assert (body'' = body') as -> by congruence.
      rewrite Hscan''. simpl. by rewrite of_pairs_wf.
Qed.

Lemma scan_elements_join (rows : list pydict) :
  ∀ (row : pydict) (values : list pydict) (fuel : nat)
    (ws1 ws2 tl : list ascii),
    Forall PyDict.wf (row :: rows) →
    forallb is_ws ws1 = true → forallb is_ws ws2 = true →
    length rows < fuel →
    ∃ body,
      join (","%char :: ws1)
        (map (encode_dict (Some (chars "  ")) (chars ",") (chars ": ") 1)
           (row :: rows))
      ++ ws2 ++ "]"%char :: tl
      = "{"%char :: body
      ∧ scan_elements fuel ("{"%char :: body) values
        = Some (values ++ row :: rows, tl).
Proof.
  induction rows as [|row' rows IH];
    intros row values fuel ws1 ws2 tl [Hrow Hrows]%Forall_cons Hws1 Hws2 Hfuel.
  - destruct (scan_object_encode_dict 1 row (ws2 ++ "]"%char :: tl) Hrow)
      as (body & Heq & Hscan).
    exists body. split; [exact Heq|].
    destruct fuel as [|fuel]; [lia|].
    simpl. rewrite Hscan, skip_ws_app by done. done.
  - destruct fuel as [|fuel]; [simpl in Hfuel; lia|].
    destruct (IH row' (values ++ [row]) fuel ws1 ws2 tl Hrows Hws1 Hws2)
      as (body' & Heq' & Hscan'); [simpl in Hfuel; lia|].
    destruct (scan_object_encode_dict 1 row
                (","%char :: ws1 ++ "{"%char :: body') Hrow)
      as (body & Heq & Hscan).
    exists body. split.
    + rewrite <- Heq, <- Heq'.
      set (enc := encode_dict (Some (chars "  ")) (chars ",") (chars ": ") 1).
      change (map enc (row :: row' :: rows))
        with (enc row :: map enc (row' :: rows)).
      change (join (","%char :: ws1) (enc row :: map enc (row' :: rows)))
        with (enc row ++ (","%char :: ws1)
              ++ join (","%char :: ws1) (map enc (row' :: rows))).
      by rewrite <- !app_assoc.
    + simpl. rewrite Hscan. simpl. rewrite skip_ws_app by done. simpl.
      simpl in Hscan'. rewrite Hscan'. by rewrite <- app_assoc.
Qed.

Lemma encode_dict_nonempty (d : pydict) :
  1 ≤ length (encode_dict (Some (chars "  ")) (chars ",") (chars ": ") 1 d).
Proof. destruct d; simpl; lia. Qed.

Lemma load_dump_indent2 (data : list pydict) :
  Forall PyDict.wf data → load (dump_indent2 data) = Some data.
Proof.
  intros Hwf. unfold load, dump_indent2.
  rewrite list_ascii_of_string_of_list_ascii.
  destruct data as [|row rows]; [done|].
  unfold encode_list.
  set (enc := encode_dict (Some (chars "  ")) (chars ",") (chars ": ") 1).
  set (ws1 := newline_indent (chars "  ") 1).
  set (ws2 := newline_indent (chars "  ") 0).
  assert (Hws1 : forallb is_ws ws1 = true) by apply newline_indent_ws.
  assert (Hws2 : forallb is_ws ws2 = true) by apply newline_indent_ws.
  assert (Hlen : length rows
                 < length (join (chars "," ++ ws1) (map enc (row :: rows)))).
  { eapply Nat.lt_le_trans; [|apply length_join].
    - rewrite length_map. cbn [length]. lia.
    - apply Forall_forall. intros x [q [-> _]]%list_elem_of_fmap.
      apply encode_dict_nonempty. }
  destruct (scan_elements_join rows row []
              (length (ws1 ++ join (chars "," ++ ws1) (map enc (row :: rows))
                       ++ ws2 ++ chars "]"))
              ws1 ws2 [] Hwf Hws1 Hws2)
    as (body & Heq & Hscan).
  { rewrite !length_app. lia. }
  change (chars "[" ++ ws1 ++ join (chars "," ++ ws1) (map enc (row :: rows))
          ++ ws2 ++ chars "]")
    with ("["%char :: (ws1 ++ join (chars "," ++ ws1) (map enc (row :: rows))
                       ++ ws2 ++ chars "]")).
  change (skip_ws ("["%char :: ?l)) with ("["%char :: l).
  cbv beta iota. change (Ascii.eqb "["%char "["%char) with true. cbv iota.
  unfold scan_array.
  rewrite skip_ws_app by done.
  change (chars "," ++ ws1) with (","%char :: ws1) in *.
  change (chars "]") with ["]"%char] in *.
  subst enc. rewrite Heq in Hscan |- *.
  change (skip_ws ("{"%char :: body)) with ("{"%char :: body).
  cbv beta iota. change (Ascii.eqb "{"%char "]"%char) with false. cbv iota.
  rewrite Hscan. done.
Qed.

End JsonRoundTrip.

(** ** Authorization and the row loops *)

Section SessionFacts.

Variable current_user : string.

Lemma authorized_may_act (row : pydict) :
  authorized current_user row = true ↔ may_act current_user row.
Proof.
  unfold authorized, may_act.
  rewrite orb_true_iff, !bool_decide_eq_true. done.
Qed.

Lemma authorized_false (row : pydict) :
  authorized current_user row = false ↔ ¬ may_act current_user row.
Proof.
  rewrite <- authorized_may_act. destruct (authorized current_user row);
    split; (done || congruence).
Qed.

Lemma own_rows_filter (all_data : list pydict) :
  own_rows current_user all_data
  = filter (λ row, PyDict.get row TENANT_FIELD = Some current_user) all_data.
Proof.
  induction all_data as [|row rest IH]; simpl; [done|].
  rewrite filter_cons. rewrite IH.
  destruct (decide (PyDict.get row TENANT_FIELD = Some current_user)).
  - by rewrite bool_decide_eq_true_2.
  - by rewrite bool_decide_eq_false_2.
Qed.

Lemma delete_rows_filter (columns : list string)
    (targets : list (list string)) (rows : list pydict) :
  delete_rows current_user columns targets rows
  = filter (λ row, ¬ (row_values columns row ∈ targets
                      ∧ may_act current_user row)) rows.
Proof.
  induction rows as [|row rest IH]; simpl; [done|].
  rewrite filter_cons, IH.
  destruct (decide (¬ (row_values columns row ∈ targets
                       ∧ may_act current_user row))) as [Hkeep|Hdrop].
  - destruct (bool_decide (row_values columns row ∈ targets)) eqn:Hin;
      simpl; [|done].
    destruct (authorized current_user row) eqn:Hauth; [|done].
    exfalso. apply Hkeep. split.
    + by apply bool_decide_eq_true in Hin.
    + by apply authorized_may_act.
  - apply dec_stable in Hdrop as [Hin Hauth].
    rewrite bool_decide_eq_true_2 by done.
    apply authorized_may_act in Hauth. by rewrite Hauth.
Qed.

Lemma filtered_rows_filter (query tenant_query project_query : string)
    (rows : list pydict) :
  filtered_rows current_user query tenant_query project_query rows
  = filter (λ row, row_shown current_user query tenant_query
                     project_query row = true) rows.
Proof.
  induction rows as [|row rest IH]; simpl; [done|].
  rewrite filter_cons, IH.
  destruct (row_shown current_user query tenant_query project_query row);
    by simpl.
Qed.

Lemma merge_entry_falsy (columns : list string)
    (existing_entry : option (list string)) (entry_data : pydict)
    (rows : list pydict) :
  truthy existing_entry = false →
  merge_entry current_user columns existing_entry entry_data rows
  = rows ++ [entry_data].
Proof.
  intros Hf. induction rows as [|row rest IH]; simpl; [done|].
  rewrite Hf. simpl. by rewrite IH.
Qed.

Lemma merge_entry_no_match (columns : list string) (target : list string)
    (entry_data : pydict) (rows : list pydict) :
  (∀ row, row ∈ rows → row_values columns row ≠ target) →
  merge_entry current_user columns (Some target) entry_data rows
  = rows ++ [entry_data].
Proof.
  induction rows as [|row rest IH]; intros Hno; simpl; [done|].
  rewrite (bool_decide_eq_false_2 (Some (row_values columns row) = Some target)).
  - rewrite andb_false_r. rewrite IH; [done|].
    intros r Hr. apply Hno. by right.
  - intros [= Heq]. apply (Hno row); [left|done].
Qed.

Lemma merge_entry_first_match (columns : list string) (target : list string)
    (entry_data : pydict) (rows : list pydict) (i : nat) (row : pydict) :
  target ≠ [] →
  first_match columns target rows i row →
  merge_entry current_user columns (Some target) entry_data rows
  = if authorized current_user row then <[i := entry_data]> rows else rows.
Proof.
  intros Hne. destruct target as [|t ts]; [done|]. clear Hne.
  revert i. induction rows as [|r rest IH];
    intros i (Hi & Hrow & Hfirst); [done|].
  simpl. destruct i as [|i].
  - simpl in Hi. injection Hi as ->.
    rewrite bool_decide_eq_true_2 by by rewrite Hrow.
    by destruct (authorized current_user row).
  - simpl in Hi.
    rewrite bool_decide_eq_false_2.
    + rewrite (IH i).
      * by destruct (authorized current_user row).
      * split_and!; [done..|].
        intros j r' Hj Hr'. apply (Hfirst (S j) r'); [lia|done].
    + intros [= Heq]. apply (Hfirst 0 r); [lia|done|done].
Qed.

End SessionFacts.

(** ** Access scope *)

(** C1.  For a user other than the administrator the access-scope
    filter returns exactly the rows whose [Tenant] field is the user's
    name, in the order of the input (it is the [filter] of the input
    by that test); for the administrator it returns the input
    unchanged.  [get_filtered_data] applies that filter to what
    [load_data] returns. *)
Theorem scope_returns_own_rows (P : string) (all_data : list pydict) :
  (P ≠ ADMIN →
   scope P all_data
   = filter (λ row, PyDict.get row TENANT_FIELD = Some P) all_data
   ∧ scope P all_data `sublist_of` all_data
   ∧ ∀ row, row ∈ scope P all_data
            ↔ row ∈ all_data ∧ PyDict.get row TENANT_FIELD = Some P)
  ∧ scope ADMIN all_data = all_data
  ∧ ∀ excel w,
      get_filtered_data P excel w
      = (scope P <$> (load_data P excel w).1, (load_data P excel w).2).
Proof.
  split_and!; [|done|].
  - intros Hne. unfold scope. rewrite bool_decide_eq_false_2 by done.
    rewrite own_rows_filter. split_and!; [done|apply sublist_filter|].
    intros row. rewrite list_elem_of_filter. tauto.
  - intros excel w. unfold get_filtered_data.
    by destruct (load_data P excel w).
Qed.

(** The scenario of the specification: a store with one row of tenant
    [acme], seen by [acme]. *)
Lemma scope_returns_own_rows_witness :
  scope "acme" [[("Item", "bolt"); ("Tenant", "acme"); ("Project", "P1")]]
  = filter (λ row, PyDict.get row TENANT_FIELD = Some "acme")
      [[("Item", "bolt"); ("Tenant", "acme"); ("Project", "P1")]].
Proof.
  refine (proj1 (proj1 (scope_returns_own_rows "acme" _) _)).
  discriminate.
Defined.

(** ** Edit-session merge *)

(** C2, as the code has it.  For a target tuple that is not empty:
    when the first row whose displayed tuple equals the target may be
    acted on by the user, exactly that row is replaced in place and
    every other row, later duplicates included, stays; when the user
    may not act on that first match the collection is unchanged; when
    no row matches the record is appended as the last row.  An empty
    target tuple counts as no target: the record is appended. *)
Theorem merge_entry_replaces_first_match (P : string)
    (columns target : list string) (entry_data : pydict)
    (rows : list pydict) :
  target ≠ [] →
  (∀ i row, first_match columns target rows i row → may_act P row →
     merge_entry P columns (Some target) entry_data rows
     = <[i := entry_data]> rows)
  ∧ (∀ i row, first_match columns target rows i row → ¬ may_act P row →
       merge_entry P columns (Some target) entry_data rows = rows)
  ∧ ((∀ row, row ∈ rows → row_values columns row ≠ target) →
       merge_entry P columns (Some target) entry_data rows
       = rows ++ [entry_data])
  ∧ merge_entry P columns (Some []) entry_data rows = rows ++ [entry_data].
Proof.
  intros Hne. split_and!.
  - intros i row Hfirst Hmay.
    rewrite (merge_entry_first_match P columns target entry_data rows i row)
      by done.
    apply authorized_may_act in Hmay. by rewrite Hmay.
  - intros i row Hfirst Hmay.
    rewrite (merge_entry_first_match P columns target entry_data rows i row)
      by done.
    apply authorized_false in Hmay. by rewrite Hmay.
  - apply merge_entry_no_match.
  - by apply merge_entry_falsy.
Qed.

(** Two identical rows of tenant [acme], edited by [acme]: the first
    one is replaced, the second one stays. *)
Lemma merge_entry_replaces_first_match_witness :
  merge_entry "acme" ["Item"; "Tenant"] (Some ["bolt"; "acme"])
    [("Item", "nut"); ("Tenant", "acme")]
    [[("Item", "bolt"); ("Tenant", "acme")];
     [("Item", "bolt"); ("Tenant", "acme")]]
  = [[("Item", "nut"); ("Tenant", "acme")];
     [("Item", "bolt"); ("Tenant", "acme")]].
Proof.
  refine (proj1 (merge_entry_replaces_first_match "acme" ["Item"; "Tenant"]
                   ["bolt"; "acme"] _ _ _) 0
            [("Item", "bolt"); ("Tenant", "acme")] _ _).
  - discriminate.
  - split_and!; [reflexivity..|]. intros j r Hj. lia.
  - right. reflexivity.
Defined.

(** C2 as stated fails on the empty tuple: with no columns, the row
    [{}] shows the empty tuple, the administrator may act on it, and
    yet the commit appends instead of replacing that row. *)
Lemma merge_entry_empty_target_appends :
  first_match [] [] [[]] 0 []
  ∧ may_act ADMIN []
  ∧ merge_entry ADMIN [] (Some []) [("Last Updated", "2024-01-01 00:00:00")]
      [[]]
    = [[]; [("Last Updated", "2024-01-01 00:00:00")]]
  ∧ merge_entry ADMIN [] (Some []) [("Last Updated", "2024-01-01 00:00:00")]
      [[]]
    ≠ <[0 := [("Last Updated", "2024-01-01 00:00:00")]]> [[]].
Proof.
  split_and!.
  - split_and!; [reflexivity..|]. intros j r Hj. lia.
  - by left.
  - reflexivity.
  - discriminate.
Qed.

(** ** Delete *)

(** C3.  [delete_entry] keeps exactly the rows that are not both
    selected (their displayed tuple is among the selected tuples) and
    open to the user (administrator, or tenant equal to the user), in
    their original order; it is a total function, so no exception is
    raised, and a row the user may not act on stays in the store. *)
Theorem delete_entry_removes_authorized_matches (P : string)
    (selected : list (list string)) (app : App) (w : World) :
  let app' := (delete_entry P selected app w).1 in
  full_data app'
  = filter (λ row, ¬ (row_values (columns app) row ∈ selected ∧ may_act P row))
      (full_data app)
  ∧ full_data app' `sublist_of` full_data app
  ∧ ∀ row, row ∈ full_data app → ¬ may_act P row → row ∈ full_data app'.
Proof.
  assert (Heq : full_data (delete_entry P selected app w).1
    = filter (λ row, ¬ (row_values (columns app) row ∈ selected
                        ∧ may_act P row)) (full_data app)).
  { destruct selected as [|s selected]; simpl.
    - symmetry. induction (full_data app) as [|row rest IH]; [done|].
      rewrite filter_cons_True; [by rewrite IH|].
      intros [Hin _]. by apply elem_of_nil in Hin.
    - apply delete_rows_filter. }
  simpl. rewrite Heq. split_and!; [done|apply sublist_filter|].
  intros row Hin Hno. apply list_elem_of_filter. split; [|done].
  intros [_ Hmay]. by apply Hno.
Qed.

(** The scenario of the specification: [other] asks to delete the row
    of tenant [acme]; the row stays. *)
Lemma delete_entry_removes_authorized_matches_witness :
  [("Item", "bolt"); ("Tenant", "acme")]
  ∈ full_data
      (delete_entry "other" [["bolt"; "acme"]]
         (mkApp [[("Item", "bolt"); ("Tenant", "acme")]] ["Item"; "Tenant"]
            "" "other" "" [])
         (mkWorld None false [] (λ _, "2024-01-01 00:00:00") 0 [] [])).1.
Proof.
  refine (proj2 (proj2 (delete_entry_removes_authorized_matches "other"
                          [["bolt"; "acme"]] _ _)) _ _ _).
  - left.
  - intros [H|H]; discriminate H.
Defined.

(** ** Display filter *)

(** C9.  The display filter is idempotent: applied to its own output
    with the same three filter texts it returns that output. *)
Theorem displayed_rows_idempotent (P search tenant project : string)
    (rows : list pydict) :
  displayed_rows P search tenant project
    (displayed_rows P search tenant project rows)
  = displayed_rows P search tenant project rows.
Proof.
  unfold displayed_rows. rewrite !filtered_rows_filter.
  by apply list_filter_filter_r.
Qed.

(** C4, as the code has it.  With [tq] the tenant filter stripped and
    lower-cased: for the administrator and a non-empty [tq] a row is
    visible exactly when its lower-cased [Tenant] is [tq] or its
    [Tenant] is the administrator's own name; for the administrator
    and an empty [tq] every row is visible; for any other user a row
    is visible exactly when its [Tenant] is the user's name, whatever
    the tenant filter holds. *)
Theorem tenant_match_visibility (P tenant : string) (row : pydict) :
  let tq := PyStr.lower (PyStr.strip tenant) in
  (P = ADMIN → tq ≠ "" →
     (tenant_match P tq row = true
      ↔ PyStr.lower (PyDict.get_default row TENANT_FIELD "") = tq
        ∨ PyDict.get row TENANT_FIELD = Some ADMIN))
  ∧ (P = ADMIN → tq = "" → tenant_match P tq row = true)
  ∧ (P ≠ ADMIN →
       (tenant_match P tq row = true
        ↔ PyDict.get row TENANT_FIELD = Some P)).
Proof.
  intros tq. unfold tenant_match. split_and!.
  - intros -> Hne.
    rewrite orb_true_iff, andb_true_iff, orb_true_iff, !bool_decide_eq_true.
    split.
    + intros [[_ [Hempty|Hsame]]|Hown]; [done|by left|by right].
    + intros [Hsame|Hown]; [left; split; [done|by right]|by right].
  - intros -> ->. done.
  - intros Hne. rewrite (bool_decide_eq_false_2 (P = ADMIN)) by done.
    simpl. by rewrite bool_decide_eq_true.
Qed.

(** The administrator filters on [Acme]: the row of tenant [acme] is
    visible. *)
Lemma tenant_match_visibility_witness :
  tenant_match ADMIN (PyStr.lower (PyStr.strip " Acme "))
    [("Item", "bolt"); ("Tenant", "acme")] = true.
Proof.
  refine (proj2 (proj1 (tenant_match_visibility ADMIN " Acme "
                          [("Item", "bolt"); ("Tenant", "acme")])
                   eq_refl _) _).
  - discriminate.
  - left. reflexivity.
Defined.

(** C4 as stated fails for a row tagged with the administrator's own
    name: the administrator filters on [acme], the row's tenant is not
    [acme] in any case, and the row is visible all the same. *)
Lemma tenant_match_admin_row_ignores_filter :
  PyStr.strip "acme" ≠ ""
  ∧ PyStr.lower (PyDict.get_default
                   [("Item", "bolt"); ("Tenant", "administrator")]
                   TENANT_FIELD "")
    ≠ PyStr.lower "acme"
  ∧ tenant_match ADMIN (PyStr.lower (PyStr.strip "acme"))
      [("Item", "bolt"); ("Tenant", "administrator")] = true.
Proof. split_and!; [discriminate..|reflexivity]. Qed.

(** ** Edit-session commit *)

Lemma entry_record_tenant (P : string) (columns : list string)
    (typed : string → string) (stamp : string) :
  P ≠ ADMIN →
  PyDict.get (entry_record P columns typed stamp) TENANT_FIELD = Some P.
Proof.
  intros Hne. unfold entry_record.
  rewrite bool_decide_eq_true_2 by done. apply get_set_eq.
Qed.

Lemma entry_record_last_updated (P : string) (columns : list string)
    (typed : string → string) (stamp : string) :
  PyDict.get (entry_record P columns typed stamp) LAST_UPDATED_FIELD
  = Some stamp.
Proof.
  unfold entry_record. case_bool_decide.
  - rewrite get_set_ne by discriminate. apply get_set_eq.
  - apply get_set_eq.
Qed.

Lemma entry_window_save_full_data (P : string)
    (existing_entry : option (list string)) (typed : string → string)
    (app : App) (w : World) :
  full_data (entry_window_save P existing_entry typed app w).1
  = merge_entry P (columns app) existing_entry
      (entry_record P (columns app) typed (clock w (ticks w)))
      (full_data app).
Proof. reflexivity. Qed.

(** C5, as the code has it.  The record a commit builds carries the
    user's name as [Tenant] when the user is not the administrator,
    whatever was typed, and carries the clock reading taken at the
    commit as [Last Updated]; that record is what the merge loop
    receives.  When it replaces a row whose stamp is an earlier reading
    of a clock that never runs backwards, the new stamp is later than
    or equal to the replaced one. *)
Theorem commit_forces_tenant_and_stamp (P : string)
    (existing_entry : option (list string)) (typed : string → string)
    (app : App) (w : World) :
  let entry_data := entry_record P (columns app) typed (clock w (ticks w)) in
  let app' := (entry_window_save P existing_entry typed app w).1 in
  (P ≠ ADMIN → PyDict.get entry_data TENANT_FIELD = Some P)
  ∧ PyDict.get entry_data LAST_UPDATED_FIELD = Some (clock w (ticks w))
  ∧ full_data app'
    = merge_entry P (columns app) existing_entry entry_data (full_data app)
  ∧ (∀ target i row k,
       existing_entry = Some target → target ≠ [] →
       first_match (columns app) target (full_data app) i row →
       may_act P row →
       clock_monotone w → k ≤ ticks w →
       PyDict.get row LAST_UPDATED_FIELD = Some (clock w k) →
       full_data app' !! i = Some entry_data
       ∧ stamp_le (clock w k) (clock w (ticks w))).
Proof.
  simpl. split_and!.
  - apply entry_record_tenant.
  - apply entry_record_last_updated.
  - done.
  - intros target i row k -> Hne Hfirst Hmay Hmono Hk Hold. split.
    + rewrite (merge_entry_first_match P (columns app) target _
                 (full_data app) i row Hne Hfirst).
      apply authorized_may_act in Hmay. rewrite Hmay.
      apply list_lookup_insert_eq. destruct Hfirst as (Hi & _).
      by apply lookup_lt_Some in Hi.
    + by apply Hmono.
Qed.

(** [acme] types another tenant's name into the [Tenant] box; the
    committed record is tagged [acme]. *)
Lemma commit_forces_tenant_and_stamp_witness :
  PyDict.get
    (entry_record "acme" ["Item"; "Tenant"]
       (λ col, if decide (col = "Tenant") then "globex" else "bolt")
       "2024-06-01 12:00:00")
    TENANT_FIELD
  = Some "acme".
Proof.
  refine (proj1 (commit_forces_tenant_and_stamp "acme" None
                   (λ col, if decide (col = "Tenant") then "globex" else "bolt")
                   (mkApp [] ["Item"; "Tenant"] "" "acme" "" [])
                   (mkWorld None false [] (λ _, "2024-06-01 12:00:00") 0 [] []))
            _).
  discriminate.
Defined.

(** C5 as stated fails on the order of the stamps: the store holds a
    row stamped [2024-06-01 21:00:00] (written where the local time is
    ahead), the clock of this session reads [2024-06-01 05:00:05], and
    the commit replaces the later stamp by the earlier one. *)
Lemma commit_stamp_may_precede_replaced :
  let old_row :=
    [("Item", "bolt"); ("Tenant", "acme");
     ("Last Updated", "2024-06-01 21:00:00")] in
  let app :=
    mkApp [old_row] ["Item"; "Tenant"; "Last Updated"] "" "acme" "" [] in
  let w := mkWorld None false [] (λ _, "2024-06-01 05:00:05") 0 [] [] in
  let app' :=
    (entry_window_save "acme" (Some ["bolt"; "acme"; "2024-06-01 21:00:00"])
       (λ col, PyDict.get_default old_row col "") app w).1 in
  full_data app
  = [[("Item", "bolt"); ("Tenant", "acme");
      ("Last Updated", "2024-06-01 21:00:00")]]
  ∧ full_data app'
    = [[("Item", "bolt"); ("Tenant", "acme");
        ("Last Updated", "2024-06-01 05:00:05")]]
  ∧ ¬ stamp_le "2024-06-01 21:00:00" "2024-06-01 05:00:05".
Proof. split_and!; [reflexivity..|discriminate]. Qed.

(** ** Initial import *)

Lemma stamp_row_last_updated (P t : string) (row : pydict) :
  PyDict.get (stamp_row P t row) LAST_UPDATED_FIELD = Some t.
Proof.
  unfold stamp_row. rewrite get_set_ne by discriminate. apply get_set_eq.
Qed.

Lemma stamp_row_tenant (P t : string) (row : pydict) :
  PyDict.get (stamp_row P t row) TENANT_FIELD
  = Some (default (tenant_default P) (PyDict.get row TENANT_FIELD)).
Proof.
  unfold stamp_row. rewrite get_set_eq. unfold PyDict.get_default.
  by rewrite get_set_ne by discriminate.
Qed.

Lemma stamp_row_other (P t k : string) (row : pydict) :
  k ≠ LAST_UPDATED_FIELD → k ≠ TENANT_FIELD →
  PyDict.get (stamp_row P t row) k = PyDict.get row k.
Proof.
  intros Hlu Hten. unfold stamp_row. by rewrite !get_set_ne by done.
Qed.

Lemma stamp_rows_cons (P : string) (row : pydict) (rest : list pydict)
    (w : World) :
  stamp_rows P (row :: rest) w
  = (stamp_row P (clock w (ticks w)) row :: (stamp_rows P rest (now w).2).1,
     (stamp_rows P rest (now w).2).2).
Proof. simpl. by destruct (stamp_rows P rest _). Qed.

Lemma stamp_rows_lookup (P : string) (rows : list pydict) (w : World)
    (i : nat) :
  (stamp_rows P rows w).1 !! i
  = stamp_row P (clock w (ticks w + i)) <$> rows !! i.
Proof.
  revert w i. induction rows as [|row rest IH]; intros w i; [done|].
  rewrite stamp_rows_cons. destruct i as [|i]; simpl.
  - by rewrite Nat.add_0_r.
  - rewrite IH. simpl. by rewrite Nat.add_succ_r.
Qed.

Lemma stamp_rows_length (P : string) (rows : list pydict) (w : World) :
  length (stamp_rows P rows w).1 = length rows.
Proof.
  revert w. induction rows as [|row rest IH]; intros w; [done|].
  rewrite stamp_rows_cons. simpl. by rewrite IH.
Qed.

Lemma initialize_from_excel_data (P : string) (rows : list pydict)
    (w : World) :
  (initialize_from_excel P (Some rows) w).1 = (stamp_rows P rows w).1.
Proof.
  unfold initialize_from_excel. by destruct (stamp_rows P rows w).
Qed.

(** C6, as the code has it.  Every imported row becomes a record, at
    the same position.  Its [Last Updated] is always the clock reading
    taken for that row, whatever the row carried; its [Tenant] is
    injected only if absent, the default being the user's name, or the
    empty string for the administrator; every other field is kept.
    When the file dialog is cancelled the result is empty and nothing
    else happens. *)
Theorem import_stamps_every_row (P : string) (rows : list pydict)
    (w : World) :
  let data := (initialize_from_excel P (Some rows) w).1 in
  length data = length rows
  ∧ (∀ i row, rows !! i = Some row →
       ∃ out, data !! i = Some out
         ∧ PyDict.get out LAST_UPDATED_FIELD = Some (clock w (ticks w + i))
         ∧ PyDict.get out TENANT_FIELD
           = Some (default (if decide (P = ADMIN) then "" else P)
                     (PyDict.get row TENANT_FIELD))
         ∧ ∀ k, k ≠ LAST_UPDATED_FIELD → k ≠ TENANT_FIELD →
                PyDict.get out k = PyDict.get row k)
  ∧ initialize_from_excel P None w = ([], w).
Proof.
  cbv zeta. rewrite initialize_from_excel_data. split_and!.
  - apply stamp_rows_length.
  - intros i row Hrow. eexists. rewrite stamp_rows_lookup, Hrow. simpl.
    split_and!; [done|apply stamp_row_last_updated| |].
    + rewrite stamp_row_tenant. unfold tenant_default.
      destruct (decide (P = ADMIN)).
      * by rewrite bool_decide_eq_false_2 by tauto.
      * by rewrite bool_decide_eq_true_2.
    + intros k. apply stamp_row_other.
  - done.
Qed.

(** [acme] imports one row without a tenant: it is stamped and tagged
    [acme]. *)
Lemma import_stamps_every_row_witness :
  ∃ out,
    (initialize_from_excel "acme" (Some [[("Item", "bolt")]])
       (mkWorld None false [] (λ _, "2024-06-01 12:00:00") 0 [] [])).1 !! 0
    = Some out
    ∧ PyDict.get out LAST_UPDATED_FIELD = Some "2024-06-01 12:00:00"
    ∧ PyDict.get out TENANT_FIELD = Some "acme"
    ∧ ∀ k, k ≠ LAST_UPDATED_FIELD → k ≠ TENANT_FIELD →
           PyDict.get out k = PyDict.get [("Item", "bolt")] k.
Proof.
  refine (proj1 (proj2 (import_stamps_every_row "acme" [[("Item", "bolt")]]
                          (mkWorld None false [] (λ _, "2024-06-01 12:00:00")
                             0 [] [])))
            0 [("Item", "bolt")] _).
  reflexivity.
Defined.

(** C6 as stated fails for [Last Updated]: a row that already carries
    a stamp does not keep it. *)
Lemma import_overwrites_last_updated :
  PyDict.get [("Item", "bolt"); ("Last Updated", "2020-01-01 00:00:00")]
    LAST_UPDATED_FIELD
  = Some "2020-01-01 00:00:00"
  ∧ (initialize_from_excel "acme"
       (Some [[("Item", "bolt"); ("Last Updated", "2020-01-01 00:00:00")]])
       (mkWorld None false [] (λ _, "2024-06-01 12:00:00") 0 [] [])).1
    = [[("Item", "bolt"); ("Last Updated", "2024-06-01 12:00:00");
        ("Tenant", "acme")]].
Proof. split; reflexivity. Qed.

(** ** Export *)

(** C8, as the code has it.  An empty subset gives the notice
    [No data to export.], whatever the format tag would be, and no
    file.  For a non-empty subset: a non-empty tag whose lower-cased
    form is none of [json], [html], [txt], [xlsx] gives the error box
    [Unsupported format: ...] and no file; an empty or cancelled tag
    ends the export with no box and no file. *)
Theorem export_data_rejections (data : list pydict)
    (export_type : option string) (file_path : string)
    (encoder_error : option string) (w : World) :
  let w' := export_data data export_type file_path encoder_error w in
  (data = [] →
     dialogs w' = dialogs w ++ [MsgInfo "Export" "No data to export."]
     ∧ exported w' = exported w)
  ∧ (∀ tag, data ≠ [] → export_type = Some tag → tag ≠ "" →
       PyStr.lower tag ∉ filetypes →
       dialogs w'
       = dialogs w
         ++ [MsgError "Export Error"
               ("Unsupported format: " +:+ PyStr.lower tag)]
       ∧ exported w' = exported w)
  ∧ (data ≠ [] → export_type = None ∨ export_type = Some "" → w' = w).
Proof.
  cbv zeta. split_and!.
  - by intros ->.
  - intros tag Hdata -> Htag Hnot.
    destruct data as [|row data]; [done|].
    destruct tag as [|c tag]; [done|].
    unfold export_data. by rewrite bool_decide_eq_false_2.
  - intros Hdata Hnone. destruct data as [|row data]; [done|].
    by destruct Hnone as [-> | ->].
Qed.

(** The scenario of the specification: the tag [csv] is answered with
    the error box and no file is written. *)
Lemma export_data_rejections_witness :
  dialogs
    (export_data [[("Item", "bolt")]] (Some "csv") "out.csv" None
       (mkWorld None false [] (λ _, "2024-06-01 12:00:00") 0 [] []))
  = [MsgError "Export Error" "Unsupported format: csv"]
  ∧ exported
      (export_data [[("Item", "bolt")]] (Some "csv") "out.csv" None
         (mkWorld None false [] (λ _, "2024-06-01 12:00:00") 0 [] []))
    = [].
Proof.
  refine (proj1 (proj2 (export_data_rejections [[("Item", "bolt")]]
                          (Some "csv") "out.csv" None
                          (mkWorld None false []
                             (λ _, "2024-06-01 12:00:00") 0 [] [])))
            "csv" _ eq_refl _ _).
  - discriminate.
  - discriminate.
  - apply (proj1 (bool_decide_eq_false _)). reflexivity.
Defined.

(** C8 as stated fails in three ways: the tag [JSON] is not one of
    the four tags, yet it is lower-cased, accepted, and a file is
    written; the empty tag is not one of the four either, yet no error
    is reported; and with an empty subset the tag [csv] is never looked
    at, the notice is shown and not an error. *)
Lemma export_data_tag_not_in_set_cases :
  let w := mkWorld None false [] (λ _, "2024-06-01 12:00:00") 0 [] [] in
  (("JSON" ∉ filetypes)
   ∧ exported (export_data [[("Item", "bolt")]] (Some "JSON") "out.json"
                 None w)
     = [("out.json", "json")]
   ∧ dialogs (export_data [[("Item", "bolt")]] (Some "JSON") "out.json"
                None w)
     = [MsgInfo "Export" "Data exported to out.json"])
  ∧ (("" ∉ filetypes)
     ∧ dialogs (export_data [[("Item", "bolt")]] (Some "") "out.json" None w)
       = [])
  ∧ (("csv" ∉ filetypes)
     ∧ dialogs (export_data [] (Some "csv") "out.csv" None w)
       = [MsgInfo "Export" "No data to export."]).
Proof.
  assert (Hnot : ∀ tag, bool_decide (tag ∈ filetypes) = false → tag ∉ filetypes)
    by (intros tag; apply bool_decide_eq_false).
  cbv zeta. split_and!; try reflexivity; by apply Hnot.
Qed.

(** ** Persistence *)

Lemma save_data_file (P : string) (data : list pydict) (w : World) :
  data_file (save_data P data w) = Some (Json.dump_indent2 data).
Proof. unfold save_data, git_commit. simpl. by destruct (git_dir w). Qed.

Lemma save_data_runs (P : string) (data : list pydict) (w : World) :
  subprocess_runs (save_data P data w)
  = subprocess_runs w
    ++ (if git_dir w
        then [["git"; "add"; DATA_FILE];
              ["git"; "commit"; "-m"; "Data updated by " +:+ P]]
        else []).
Proof.
  unfold save_data, git_commit. simpl.
  destruct (git_dir w); simpl; [done|by rewrite app_nil_r].
Qed.

(** C10, as the code has it.  In an editing commit whose target
    tuple is not empty, by a user other than the administrator, when
    the first row whose displayed tuple equals the target is not
    tagged with the user's name, the collection in memory is
    unchanged, and [save_data] runs all the same: the data file holds
    the encoding of the unchanged collection, and, where a [.git]
    directory exists, [git add] and [git commit] are run with a
    message naming the user. *)
Theorem unauthorized_edit_still_saves (P : string) (target : list string)
    (typed : string → string) (app : App) (w : World) (i : nat)
    (row : pydict) :
  target ≠ [] →
  first_match (columns app) target (full_data app) i row →
  P ≠ ADMIN →
  PyDict.get row TENANT_FIELD ≠ Some P →
  let app' := (entry_window_save P (Some target) typed app w).1 in
  let w' := (entry_window_save P (Some target) typed app w).2 in
  full_data app' = full_data app
  ∧ data_file w' = Some (Json.dump_indent2 (full_data app))
  ∧ subprocess_runs w'
    = subprocess_runs w
      ++ (if git_dir w
          then [["git"; "add"; DATA_FILE];
                ["git"; "commit"; "-m"; "Data updated by " +:+ P]]
          else []).
Proof.
  intros Hne Hfirst Hadmin Htenant.
  assert (Hmerge :
    merge_entry P (columns app) (Some target)
      (entry_record P (columns app) typed (clock w (ticks w))) (full_data app)
    = full_data app).
  { rewrite (merge_entry_first_match P (columns app) target _ (full_data app)
               i row Hne Hfirst).
    assert (Hno : authorized P row = false).
    { apply authorized_false. intros [?|?]; done. }
    by rewrite Hno. }
  cbv zeta. unfold entry_window_save. simpl. rewrite Hmerge.
  split_and!; [done|apply save_data_file|by rewrite save_data_runs].
Qed.

(** [other] edits the row of tenant [acme]: the store keeps the row
    and the file is written again. *)
Lemma unauthorized_edit_still_saves_witness :
  let app := mkApp [[("Item", "bolt"); ("Tenant", "acme")]]
               ["Item"; "Tenant"] "" "other" "" [] in
  let w := mkWorld None true [] (λ _, "2024-06-01 12:00:00") 0 [] [] in
  let r := entry_window_save "other" (Some ["bolt"; "acme"])
             (λ _, "nut") app w in
  full_data r.1 = [[("Item", "bolt"); ("Tenant", "acme")]]
  ∧ data_file r.2
    = Some (Json.dump_indent2 [[("Item", "bolt"); ("Tenant", "acme")]])
  ∧ subprocess_runs r.2
    = [["git"; "add"; "data.json"];
       ["git"; "commit"; "-m"; "Data updated by other"]].
Proof.
  refine (unauthorized_edit_still_saves "other" ["bolt"; "acme"] (λ _, "nut")
            (mkApp [[("Item", "bolt"); ("Tenant", "acme")]]
               ["Item"; "Tenant"] "" "other" "" [])
            (mkWorld None true [] (λ _, "2024-06-01 12:00:00") 0 [] [])
            0 [("Item", "bolt"); ("Tenant", "acme")] _ _ _ _).
  - discriminate.
  - split_and!; [reflexivity..|]. intros j r Hj. lia.
  - discriminate.
  - discriminate.
Defined.

(** C10 as stated fails on the empty tuple: with no columns the row
    [{}] shows the empty tuple and is not tagged with [bob], who is
    not the administrator; the commit of [bob] does not leave the
    collection as it is but appends the new record. *)
Lemma unauthorized_edit_empty_tuple_appends :
  let app := mkApp [[]] [] "" "bob" "" [] in
  let w := mkWorld None false [] (λ _, "2024-06-01 12:00:00") 0 [] [] in
  let app' := (entry_window_save "bob" (Some []) (λ _, "") app w).1 in
  first_match (columns app) [] (full_data app) 0 []
  ∧ "bob" ≠ ADMIN
  ∧ PyDict.get [] TENANT_FIELD ≠ Some "bob"
  ∧ full_data app'
    = [[]; [("Last Updated", "2024-06-01 12:00:00"); ("Tenant", "bob")]]
  ∧ full_data app' ≠ full_data app.
Proof.
  cbv zeta. split_and!.
  - split_and!; [reflexivity..|]. intros j r Hj. lia.
  - discriminate.
  - discriminate.
  - reflexivity.
  - discriminate.
Qed.

(** ** Persistence over all Python strings *)

Section UniRoundTrip.

Import Uni.

Ltac n_arith := zify; Z.to_euclidean_division_equations; lia.

Lemma hex_value_digit (d : N) :
  (d < 16)%N → hex_value (hex_digit d) = Some d.
Proof.
  intros Hd.
  assert (Hcases : d ∈ [0; 1; 2; 3; 4; 5; 6; 7; 8; 9; 10; 11; 12; 13; 14; 15]%N).
  { destruct d as [|p]; [left|].
    do 4 (try (destruct p as [p|p|]; try lia));
      repeat (left || right). }
  repeat (apply elem_of_cons in Hcases as [->|Hcases]; [reflexivity|]).
  by apply elem_of_nil in Hcases.
Qed.

Lemma hex4_u4 (n : N) :
  (n < 65536)%N →
  hex4 (hex_digit ((n / 4096) mod 16)) (hex_digit ((n / 256) mod 16))
    (hex_digit ((n / 16) mod 16)) (hex_digit (n mod 16))
  = Some n.
Proof.
  intros Hn. unfold hex4.
  rewrite !hex_value_digit by n_arith. f_equal. n_arith.
Qed.

Lemma scanstring_u4_plain (n : N) (rest : list ascii) :
  (n < 65536)%N → is_high n = false →
  scanstring (u4 n ++ rest) = push n (scanstring rest).
Proof.
  intros Hn Hhigh. unfold u4. cbn -[hex4 is_high hex_digit N.div N.modulo].
  by rewrite hex4_u4, Hhigh.
Qed.

(** What may follow the escape of a high surrogate without being
    joined to it: anything but the escape of a low surrogate. *)
Lemma scanstring_u4_high (n : N) (rest : list ascii) :
  (n < 65536)%N →
  (∀ b u g1 g2 g3 g4 rest4,
     rest = b :: u :: g1 :: g2 :: g3 :: g4 :: rest4 →
     Ascii.eqb b Json.backslash && Ascii.eqb u "u"%char = true →
     ∃ n2, hex4 g1 g2 g3 g4 = Some n2 ∧ is_low n2 = false) →
  scanstring (u4 n ++ rest) = push n (scanstring rest).
Proof.
  intros Hn Hahead. unfold u4.
  cbn -[hex4 is_high is_low hex_digit N.div N.modulo].
  rewrite hex4_u4 by done. destruct (is_high n); [|done].
  destruct rest as [|b [|u [|g1 [|g2 [|g3 [|g4 rest4]]]]]]; try done.
  destruct (Ascii.eqb b Json.backslash && Ascii.eqb u "u"%char) eqn:Hbu;
    [|done].
  destruct (Hahead b u g1 g2 g3 g4 rest4 eq_refl Hbu) as (n2 & Hhex & Hlow).
  by rewrite Hhex, Hlow.
Qed.

Lemma scanstring_pair (c : N) (rest : list ascii) :
  (65536 ≤ c)%N → (c < 1114112)%N →
  scanstring (u4 (55296 + ((c - 65536) / 1024) mod 1024)
              ++ u4 (56320 + (c - 65536) mod 1024) ++ rest)
  = push c (scanstring rest).
Proof.
  intros Hlo Hhi.
  set (hi := (55296 + ((c - 65536) / 1024) mod 1024)%N).
  set (lo := (56320 + (c - 65536) mod 1024)%N).
  assert (Hhi_range : (55296 ≤ hi ≤ 56319)%N) by (subst hi; n_arith).
  assert (Hlo_range : (56320 ≤ lo ≤ 57343)%N) by (subst lo; n_arith).
  assert (Hjoin : join_surrogates hi lo = c).
  { unfold join_surrogates. subst hi lo. n_arith. }
  assert (Hishigh : is_high hi = true).
  { unfold is_high. apply andb_true_iff. split; apply N.leb_le; lia. }
  assert (Hislow : is_low lo = true).
  { unfold is_low. apply andb_true_iff. split; apply N.leb_le; lia. }
  clearbody hi lo. unfold u4.
  cbn -[hex4 is_high is_low hex_digit N.div N.modulo join_surrogates].
  rewrite hex4_u4 by lia. rewrite Hishigh.
  rewrite hex4_u4 by lia. by rewrite Hislow, Hjoin.
Qed.

Lemma ascii_of_N_inj_small (c d : N) :
  (c < 256)%N → (d < 256)%N → ascii_of_N c = ascii_of_N d → c = d.
Proof.
  intros Hc Hd Heq. apply (f_equal N_of_ascii) in Heq.
  by rewrite !N_ascii_embedding in Heq.
Qed.

Lemma scanstring_raw (c : N) (rest : list ascii) :
  (32 ≤ c)%N → (c ≤ 126)%N → c ≠ 34%N → c ≠ 92%N →
  scanstring (ascii_of_N c :: rest) = push c (scanstring rest).
Proof.
  intros Hlo Hhi Hquote Hback. cbn [scanstring].
  assert (Hq : Ascii.eqb (ascii_of_N c) Json.quote = false).
  { apply Ascii.eqb_neq. intros Heq.
    apply (ascii_of_N_inj_small c 34) in Heq; [done|lia|lia]. }
  assert (Hb : Ascii.eqb (ascii_of_N c) Json.backslash = false).
  { apply Ascii.eqb_neq. intros Heq.
    apply (ascii_of_N_inj_small c 92) in Heq; [done|lia|lia]. }
  rewrite Hq, Hb, N_ascii_embedding by lia.
  by rewrite (proj2 (N.ltb_ge c 32)).
Qed.

Lemma scanstring_escape_uchar (c : N) (rest : list ascii) :
  (c < 1114112)%N →
  (is_high c = true →
   ∀ b u g1 g2 g3 g4 rest4,
     rest = b :: u :: g1 :: g2 :: g3 :: g4 :: rest4 →
     Ascii.eqb b Json.backslash && Ascii.eqb u "u"%char = true →
     ∃ n2, hex4 g1 g2 g3 g4 = Some n2 ∧ is_low n2 = false) →
  scanstring (escape_char c ++ rest) = push c (scanstring rest).
Proof.
  intros Hvalid Hahead. unfold escape_char.
  destruct (N.eqb_spec c 34) as [->|H34]; [done|].
  destruct (N.eqb_spec c 92) as [->|H92]; [done|].
  destruct (N.eqb_spec c 8) as [->|H8]; [done|].
  destruct (N.eqb_spec c 12) as [->|H12]; [done|].
  destruct (N.eqb_spec c 10) as [->|H10]; [done|].
  destruct (N.eqb_spec c 13) as [->|H13]; [done|].
  destruct (N.eqb_spec c 9) as [->|H9]; [done|].
  destruct ((32 <=? c)%N && (c <=? 126)%N) eqn:Hprint.
  { apply andb_true_iff in Hprint as [Hlo%N.leb_le Hhi%N.leb_le].
    by apply scanstring_raw. }
  destruct (N.ltb_spec c 65536) as [Hbmp|Hastral].
  - destruct (is_high c) eqn:Hhigh.
    + apply scanstring_u4_high; [done|]. by apply Hahead.
    + by apply scanstring_u4_plain.
  - rewrite <- app_assoc. by apply scanstring_pair.
Qed.

Lemma escape_ahead (s : ustr) (tl : list ascii) :
  Forall (λ c, (c < 1114112)%N) s →
  match s with
  | [] => True
  | c' :: _ => is_low c' = false
  end →
  ∀ b u g1 g2 g3 g4 rest4,
    escape s ++ Json.quote :: tl = b :: u :: g1 :: g2 :: g3 :: g4 :: rest4 →
    Ascii.eqb b Json.backslash && Ascii.eqb u "u"%char = true →
    ∃ n2, hex4 g1 g2 g3 g4 = Some n2 ∧ is_low n2 = false.
Proof.
  intros Hvalid Hhead b u g1 g2 g3 g4 rest4 Heq Hbu.
  destruct s as [|c s].
  { simpl in Heq. injection Heq as <- _. done. }
  apply Forall_cons in Hvalid as [Hc _]. simpl in Heq.
  unfold escape_char in Heq.
  destruct (N.eqb_spec c 34); [injection Heq as <- <- _; done|].
  destruct (N.eqb_spec c 92) as [|H92]; [injection Heq as <- <- _; done|].
  destruct (N.eqb_spec c 8); [injection Heq as <- <- _; done|].
  destruct (N.eqb_spec c 12); [injection Heq as <- <- _; done|].
  destruct (N.eqb_spec c 10); [injection Heq as <- <- _; done|].
  destruct (N.eqb_spec c 13); [injection Heq as <- <- _; done|].
  destruct (N.eqb_spec c 9); [injection Heq as <- <- _; done|].
  destruct ((32 <=? c)%N && (c <=? 126)%N) eqn:Hprint.
  { apply andb_true_iff in Hprint as [Hlo%N.leb_le Hhi%N.leb_le].
    injection Heq as <- _.
    apply andb_true_iff in Hbu as [Hb%Ascii.eqb_eq _].
    apply (ascii_of_N_inj_small c 92) in Hb; [done|lia|lia]. }
  destruct (N.ltb_spec c 65536) as [Hbmp|Hastral].
  - unfold u4 in Heq. injection Heq as _ _ <- <- <- <- _.
    exists c. split; [by apply hex4_u4|done].
  - unfold u4 in Heq. injection Heq as _ _ <- <- <- <- _.
    exists (55296 + ((c - 65536) / 1024) mod 1024)%N. split.
    + apply hex4_u4. n_arith.
    + unfold is_low. apply andb_false_iff. left. apply N.leb_gt. n_arith.
Qed.

Lemma scanstring_escape_ustr (s : ustr) (tl : list ascii) :
  stable s → scanstring (escape s ++ Json.quote :: tl) = Some (s, tl).
Proof.
  intros [Hvalid Hpairs]. induction s as [|c s IH]; [done|].
  apply Forall_cons in Hvalid as [Hc Hvalid].
  destruct Hpairs as [Hhead Hpairs].
  cbn [escape]. rewrite <- app_assoc.
  rewrite scanstring_escape_uchar; [by rewrite IH|done|].
  intros Hhigh. apply escape_ahead; [done|].
  destruct s as [|c' s]; [done|].
  destruct (is_low c') eqn:Hlow; [|done]. by destruct Hhead.
Qed.

(** *** The loops, as for the 8-bit codec *)

Lemma uni_set_fresh (d : udict) (k v : ustr) :
  k ∉ keys d → set d k v = d ++ [(k, v)].
Proof.
  unfold keys. induction d as [|[k' v'] d IH]; simpl; [done|].
  intros Hnin. apply not_elem_of_cons in Hnin as [Hne Hnin].
  rewrite decide_False by done. by rewrite IH.
Qed.

Lemma uni_foldl_set_nodup (ps acc : list (ustr * ustr)) :
  NoDup (keys (acc ++ ps)) →
  foldl (λ d kv, set d kv.1 kv.2) acc ps = acc ++ ps.
Proof.
  revert acc. induction ps as [|[k v] ps IH]; intros acc Hnd; simpl.
  - by rewrite app_nil_r.
  - assert (Hk : k ∉ keys acc).
    { unfold keys in *. rewrite fmap_app in Hnd.
      apply NoDup_app in Hnd as (_ & Hdisj & Hnd).
      intros Hin. apply (Hdisj _ Hin). simpl. left. }
    rewrite uni_set_fresh by done.
    rewrite IH; rewrite <- app_assoc; done.
Qed.

Lemma uni_encode_member_scan (k v : ustr) (tl : list ascii) :
  stable k → stable v →
  ∃ body,
    encode_member (Json.chars ": ") (k, v) ++ tl = Json.quote :: body
    ∧ ∀ fuel pairs,
        scan_members (S fuel) body pairs
        = match Json.skip_ws tl with
          | c3 :: l5 =>
              if Ascii.eqb c3 "}"%char then Some (pairs ++ [(k, v)], l5)
              else if Ascii.eqb c3 ","%char then
                match Json.skip_ws l5 with
                | c4 :: l6 =>
                    if Ascii.eqb c4 Json.quote
                    then scan_members fuel l6 (pairs ++ [(k, v)])
                    else None
                | [] => None
                end
              else None
          | [] => None
          end.
Proof.
  intros Hk Hv.
  exists (escape k ++ Json.quote :: ":"%char :: " "%char :: Json.quote
          :: escape v ++ Json.quote :: tl).
  split.
  - unfold encode_member, encode_string. simpl.
    rewrite <- !app_assoc. simpl. by rewrite <- !app_assoc.
  - intros fuel pairs. cbn [scan_members].
    rewrite scanstring_escape_ustr by done.
    simpl. by rewrite scanstring_escape_ustr.
Qed.

Lemma uni_scan_members_join (ps : list (ustr * ustr)) :
  ∀ (p : ustr * ustr) (pairs : list (ustr * ustr)) (fuel : nat)
    (ws1 ws2 tl : list ascii),
    Forall (λ kv, stable kv.1 ∧ stable kv.2) (p :: ps) →
    forallb Json.is_ws ws1 = true → forallb Json.is_ws ws2 = true →
    length ps < fuel →
    ∃ body,
      Json.join (","%char :: ws1)
        (map (encode_member (Json.chars ": ")) (p :: ps))
      ++ ws2 ++ "}"%char :: tl
      = Json.quote :: body
      ∧ scan_members fuel body pairs = Some (pairs ++ p :: ps, tl).
Proof.
  induction ps as [|p' ps IH];
    intros [k v] pairs fuel ws1 ws2 tl [[Hk Hv] Hps]%Forall_cons Hws1 Hws2
      Hfuel.
  - destruct (uni_encode_member_scan k v (ws2 ++ "}"%char :: tl) Hk Hv)
      as (body & Heq & Hscan).
    exists body. split; [exact Heq|].
    destruct fuel as [|fuel]; [lia|].
    rewrite Hscan, skip_ws_app by done. done.
  - destruct fuel as [|fuel]; [simpl in Hfuel; lia|].
    destruct (IH p' (pairs ++ [(k, v)]) fuel ws1 ws2 tl Hps Hws1 Hws2)
      as (body' & Heq' & Hscan'); [simpl in Hfuel; lia|].
    destruct (uni_encode_member_scan k v
                (","%char :: ws1 ++ Json.quote :: body') Hk Hv)
      as (body & Heq & Hscan).
    exists body. split.
    + rewrite <- Heq, <- Heq'.
      change (map (encode_member (Json.chars ": ")) ((k, v) :: p' :: ps))
        with (encode_member (Json.chars ": ") (k, v)
              :: map (encode_member (Json.chars ": ")) (p' :: ps)).
      change (Json.join (","%char :: ws1)
                (encode_member (Json.chars ": ") (k, v)
                 :: map (encode_member (Json.chars ": ")) (p' :: ps)))
        with (encode_member (Json.chars ": ") (k, v) ++ (","%char :: ws1)
              ++ Json.join (","%char :: ws1)
                   (map (encode_member (Json.chars ": ")) (p' :: ps))).
      by rewrite <- !app_assoc.
    + rewrite Hscan. simpl. rewrite skip_ws_app by done. simpl.
      rewrite Hscan'. by rewrite <- app_assoc.
Qed.

Lemma uni_encode_member_nonempty (p : ustr * ustr) :
  1 ≤ length (encode_member (Json.chars ": ") p).
Proof. unfold encode_member, encode_string. simpl. lia. Qed.

Lemma uni_scan_object_encode_dict (level : nat) (d : udict)
    (tl : list ascii) :
  wf d →
  ∃ body,
    encode_dict (Json.chars "  ") (Json.chars ",") (Json.chars ": ") level d
    ++ tl
    = "{"%char :: body
    ∧ scan_object body = Some (d, tl).
Proof.
  intros [Hnd Hstable]. destruct d as [|p ps].
  - exists ("}"%char :: tl). done.
  - pose proof (newline_indent_ws (S level)) as Hws1.
    pose proof (newline_indent_ws level) as Hws2.
    unfold encode_dict.
    set (ws1 := Json.newline_indent (Json.chars "  ") (S level)) in *.
    set (ws2 := Json.newline_indent (Json.chars "  ") level) in *.
    assert (Hlen : length ps
                   < length (Json.join (Json.chars "," ++ ws1)
                               (map (encode_member (Json.chars ": "))
                                  (p :: ps)))).
    { eapply Nat.lt_le_trans; [|apply length_join].
      - rewrite length_map. cbn [length]. lia.
      - apply Forall_forall. intros x [q [-> _]]%list_elem_of_fmap.
        apply uni_encode_member_nonempty. }
    destruct (uni_scan_members_join ps p []
                (length (Json.join (Json.chars "," ++ ws1)
                           (map (encode_member (Json.chars ": ")) (p :: ps))))
                ws1 ws2 tl Hstable Hws1 Hws2)
      as (body' & Heq & Hscan); [exact Hlen|].
    exists (ws1 ++ Json.quote :: body'). split.
    + rewrite <- Heq.
      change (Json.chars "{") with ["{"%char].
      change (Json.chars "}") with ["}"%char].
      change (Json.chars "," ++ ws1) with (","%char :: ws1).
      by rewrite <- !app_assoc.
    + unfold scan_object. rewrite skip_ws_app by done. simpl.
      assert (Hfuel : ∃ extra,
                length body'
                = length (Json.join (Json.chars "," ++ ws1)
                            (map (encode_member (Json.chars ": ")) (p :: ps)))
                  + extra).
      { exists (length ws2 + length tl).
        apply (f_equal length) in Heq. rewrite !length_app in Heq.
        cbn [length] in Heq.
        change (Json.chars "," ++ ws1) with (","%char :: ws1). lia. }
      destruct Hfuel as (extra & Hfuel).
      destruct (uni_scan_members_join ps p [] (length body') ws1 ws2 tl
                  Hstable Hws1 Hws2)
        as (body'' & Heq'' & Hscan''); [lia|].
      assert (body'' = body') as -> by congruence.
      rewrite Hscan''. simpl. unfold of_pairs.
      by rewrite uni_foldl_set_nodup.
Qed.

Lemma uni_scan_elements_join (rows : list udict) :
  ∀ (row : udict) (values : list udict) (fuel : nat)
    (ws1 ws2 tl : list ascii),
    Forall wf (row :: rows) →
    forallb Json.is_ws ws1 = true → forallb Json.is_ws ws2 = true →
    length rows < fuel →
    ∃ body,
      Json.join (","%char :: ws1)
        (map (encode_dict (Json.chars "  ") (Json.chars ",")
                (Json.chars ": ") 1)
           (row :: rows))
      ++ ws2 ++ "]"%char :: tl
      = "{"%char :: body
      ∧ scan_elements fuel ("{"%char :: body) values
        = Some (values ++ row :: rows, tl).
Proof.
  induction rows as [|row' rows IH];
    intros row values fuel ws1 ws2 tl [Hrow Hrows]%Forall_cons Hws1 Hws2 Hfuel.
  - destruct (uni_scan_object_encode_dict 1 row (ws2 ++ "]"%char :: tl) Hrow)
      as (body & Heq & Hscan).
    exists body. split; [exact Heq|].
    destruct fuel as [|fuel]; [lia|].
    simpl. rewrite Hscan, skip_ws_app by done. done.
  - destruct fuel as [|fuel]; [simpl in Hfuel; lia|].
    destruct (IH row' (values ++ [row]) fuel ws1 ws2 tl Hrows Hws1 Hws2)
      as (body' & Heq' & Hscan'); [simpl in Hfuel; lia|].
    destruct (uni_scan_object_encode_dict 1 row
                (","%char :: ws1 ++ "{"%char :: body') Hrow)
      as (body & Heq & Hscan).
    exists body. split.
    + rewrite <- Heq, <- Heq'.
      set (enc := encode_dict (Json.chars "  ") (Json.chars ",")
                    (Json.chars ": ") 1).
      change (map enc (row :: row' :: rows))
        with (enc row :: map enc (row' :: rows)).
      change (Json.join (","%char :: ws1) (enc row :: map enc (row' :: rows)))
        with (enc row ++ (","%char :: ws1)
              ++ Json.join (","%char :: ws1) (map enc (row' :: rows))).
      by rewrite <- !app_assoc.
    + simpl. rewrite Hscan. simpl. rewrite skip_ws_app by done. simpl.
      simpl in Hscan'. rewrite Hscan'. by rewrite <- app_assoc.
Qed.

Lemma uni_encode_dict_nonempty (d : udict) :
  1 ≤ length (encode_dict (Json.chars "  ") (Json.chars ",")
                (Json.chars ": ") 1 d).
Proof. destruct d; simpl; lia. Qed.

Lemma uni_load_dump_indent2 (data : list udict) :
  Forall wf data → load (dump_indent2 data) = Some data.
Proof.
  intros Hwf. unfold load, dump_indent2.
  rewrite list_ascii_of_string_of_list_ascii.
  destruct data as [|row rows]; [done|].
  unfold encode_list.
  set (enc := encode_dict (Json.chars "  ") (Json.chars ",")
                (Json.chars ": ") 1).
  set (ws1 := Json.newline_indent (Json.chars "  ") 1).
  set (ws2 := Json.newline_indent (Json.chars "  ") 0).
  assert (Hws1 : forallb Json.is_ws ws1 = true) by apply newline_indent_ws.
  assert (Hws2 : forallb Json.is_ws ws2 = true) by apply newline_indent_ws.
  assert (Hlen : length rows
                 < length (Json.join (Json.chars "," ++ ws1)
                             (map enc (row :: rows)))).
  { eapply Nat.lt_le_trans; [|apply length_join].
    - rewrite length_map. cbn [length]. lia.
    - apply Forall_forall. intros x [q [-> _]]%list_elem_of_fmap.
      apply uni_encode_dict_nonempty. }
  destruct (uni_scan_elements_join rows row []
              (length (ws1 ++ Json.join (Json.chars "," ++ ws1)
                                (map enc (row :: rows))
                       ++ ws2 ++ Json.chars "]"))
              ws1 ws2 [] Hwf Hws1 Hws2)
    as (body & Heq & Hscan).
  { rewrite !length_app. lia. }
  change (Json.chars "[" ++ ws1
          ++ Json.join (Json.chars "," ++ ws1) (map enc (row :: rows))
          ++ ws2 ++ Json.chars "]")
    with ("["%char :: (ws1 ++ Json.join (Json.chars "," ++ ws1)
                                (map enc (row :: rows))
                       ++ ws2 ++ Json.chars "]")).
  change (Json.skip_ws ("["%char :: ?l)) with ("["%char :: l).
  cbv beta iota. change (Ascii.eqb "["%char "["%char) with true. cbv iota.
  unfold scan_array.
  rewrite skip_ws_app by done.
  change (Json.chars "," ++ ws1) with (","%char :: ws1) in *.
  change (Json.chars "]") with ["]"%char] in *.
  subst enc. rewrite Heq in Hscan |- *.
  change (Json.skip_ws ("{"%char :: body)) with ("{"%char :: body).
  cbv beta iota. change (Ascii.eqb "{"%char "]"%char) with false. cbv iota.
  rewrite Hscan. done.
Qed.

End UniRoundTrip.

(** C7, as the code has it.  Saving a sequence of records and
    loading it again returns the same records, field for field and in
    the same order, and the load leaves the world as the save left it,
    for every sequence of Python dicts (no key twice in one record)
    whose strings nowhere hold a high surrogate followed at once by a
    low surrogate. *)
Theorem load_after_save_unicode (P : string) (R : list Uni.udict)
    (excel : option (list Uni.udict)) (w : World) :
  Forall Uni.wf R →
  Uni.load_data P excel (Uni.save_data P R w) = (Some R, Uni.save_data P R w).
Proof.
  intros Hwf. unfold Uni.load_data.
  assert (Hfile : data_file (Uni.save_data P R w)
                  = Some (Uni.dump_indent2 R)).
  { unfold Uni.save_data, git_commit. simpl. by destruct (git_dir w). }
  rewrite Hfile. by rewrite uni_load_dump_indent2.
Qed.

(** A store of two records whose values hold a quote, a backslash, a
    line feed, U+00E9, U+20AC, U+1F600 and a high surrogate that is
    followed by a letter. *)
Lemma load_after_save_unicode_witness :
  let R := [[(Uni.of_string "Item", [34; 92; 10; 233; 8364; 128512]%N);
             (Uni.of_string "Tenant", Uni.of_string "acme")];
            [(Uni.of_string "Item", [55357; 65]%N)]] in
  let w := mkWorld None true [] (λ _, "2024-06-01 12:00:00") 0 [] [] in
  Uni.load_data "acme" None (Uni.save_data "acme" R w)
  = (Some R, Uni.save_data "acme" R w).
Proof.
  refine (load_after_save_unicode "acme" _ None _ _).
  repeat first [apply Forall_nil_2 | apply Forall_cons_2 | split];
    try reflexivity;
    try (intros [? ?]; discriminate);
    apply (bool_decide_unpack _); reflexivity.
Defined.

(** C7 as stated fails on a string that holds the two code points
    U+D83D and U+DE00 one after the other: the file holds the two
    escapes of these two numbers, and loading reads them as the one code
    point U+1F600. *)
Lemma load_after_save_joins_surrogates :
  let R := [[(Uni.of_string "Item", [55357; 56832]%N)]] in
  let w := mkWorld None false [] (λ _, "2024-06-01 12:00:00") 0 [] [] in
  Forall (λ c, (c < 1114112)%N) [55357; 56832]%N
  ∧ (Uni.load_data "acme" None (Uni.save_data "acme" R w)).1
    = Some [[(Uni.of_string "Item", [128512]%N)]]
  ∧ (Uni.load_data "acme" None (Uni.save_data "acme" R w)).1 ≠ Some R.
Proof.
  cbv zeta. split_and!.
  - by repeat constructor.
  - reflexivity.
  - discriminate.
Qed.

(** * Further properties of the code *)

(** ** Dictionaries stay well formed *)

Lemma set_keys (d : pydict) (k v : string) :
  PyDict.keys (PyDict.set d k v)
  = if decide (k ∈ PyDict.keys d) then PyDict.keys d else PyDict.keys d ++ [k].
Proof.
  unfold PyDict.keys. induction d as [|[k' v'] d IH]; [done|].
  cbn [PyDict.set]. rewrite fmap_cons. cbn [fst].
  destruct (decide (k' = k)) as [->|Hne]; rewrite fmap_cons; cbn [fst].
  - rewrite decide_True; [done|left].
  - rewrite IH. destruct (decide (k ∈ d.*1)) as [Hin|Hnin].
    + rewrite decide_True; [done|by right].
    + rewrite decide_False; [done|].
      intros [?|?]%elem_of_cons; done.
Qed.

Lemma set_wf (d : pydict) (k v : string) :
  PyDict.wf d → PyDict.wf (PyDict.set d k v).
Proof.
  unfold PyDict.wf. intros Hwf. rewrite set_keys. case_decide; [done|].
  apply NoDup_app. split_and!; [done| |apply NoDup_singleton].
  intros x Hx ->%list_elem_of_singleton. done.
Qed.

Lemma foldl_set_wf (ps : list (string * string)) (acc : pydict) :
  PyDict.wf acc → PyDict.wf (foldl (λ d kv, PyDict.set d kv.1 kv.2) acc ps).
Proof.
  revert acc. induction ps as [|[k v] ps IH]; intros acc Hwf; [done|].
  simpl. apply IH. by apply set_wf.
Qed.

Lemma stamp_row_wf (P t : string) (row : pydict) :
  PyDict.wf row → PyDict.wf (stamp_row P t row).
Proof. intros Hwf. unfold stamp_row. by do 2 apply set_wf. Qed.

Lemma stamp_rows_wf (P : string) (rows : list pydict) (w : World) :
  Forall PyDict.wf rows → Forall PyDict.wf (stamp_rows P rows w).1.
Proof.
  revert w. induction rows as [|row rest IH]; intros w Hwf; [done|].
  apply Forall_cons in Hwf as [Hrow Hrest].
  rewrite stamp_rows_cons. simpl. apply Forall_cons. split.
  - by apply stamp_row_wf.
  - by apply IH.
Qed.

Lemma entry_record_wf (P : string) (columns : list string)
    (typed : string → string) (stamp : string) :
  PyDict.wf (entry_record P columns typed stamp).
Proof.
  unfold entry_record.
  assert (Hd0 : PyDict.wf
            (foldl (λ d kv, PyDict.set d kv.1 kv.2) []
               (PyDict.of_pairs (map (λ col, (col, typed col)) columns)))).
  { apply foldl_set_wf. apply NoDup_nil_2. }
  case_bool_decide; by repeat apply set_wf.
Qed.

Lemma merge_entry_wf (P : string) (columns : list string)
    (existing_entry : option (list string)) (entry_data : pydict)
    (rows : list pydict) :
  PyDict.wf entry_data → Forall PyDict.wf rows →
  Forall PyDict.wf (merge_entry P columns existing_entry entry_data rows).
Proof.
  intros Hentry. induction rows as [|row rest IH]; intros Hrows; simpl.
  - by apply Forall_singleton.
  - apply Forall_cons in Hrows as [Hrow Hrest].
    destruct (truthy existing_entry
              && bool_decide (Some (row_values columns row) = existing_entry)).
    + destruct (authorized P row); by apply Forall_cons.
    + apply Forall_cons. split; [done|by apply IH].
Qed.

Lemma delete_rows_wf (P : string) (columns : list string)
    (targets : list (list string)) (rows : list pydict) :
  Forall PyDict.wf rows → Forall PyDict.wf (delete_rows P columns targets rows).
Proof.
  intros Hrows. induction Hrows as [|row rest Hrow Hrest IH]; simpl; [done|].
  destruct (bool_decide (row_values columns row ∈ targets)
            && authorized P row); [done|by apply Forall_cons].
Qed.

(** ** The file mirrors the store *)

(** X1.  The first [load_data] of a fresh installation imports the chosen
    spreadsheet, stamps it and writes the data file; every later
    [load_data] returns those same records from the file, asks for no
    spreadsheet and changes nothing. *)
Theorem import_then_reload (P : string) (rows : list pydict)
    (excel : option (list pydict)) (w : World) :
  data_file w = None →
  Forall PyDict.wf rows →
  let r := load_data P (Some rows) w in
  r.1 = Some (stamp_rows P rows w).1
  ∧ data_file r.2 = Some (Json.dump_indent2 (stamp_rows P rows w).1)
  ∧ load_data P excel r.2 = r.
Proof.
  intros Hnone Hwf. cbv zeta.
  assert (Hr : load_data P (Some rows) w
               = (Some (stamp_rows P rows w).1,
                  save_data P (stamp_rows P rows w).1 (stamp_rows P rows w).2)).
  { unfold load_data, initialize_from_excel. rewrite Hnone.
    by destruct (stamp_rows P rows w). }
  rewrite Hr. simpl. split_and!; [done|apply save_data_file|].
  unfold load_data. rewrite save_data_file.
  rewrite load_dump_indent2; [done|]. by apply stamp_rows_wf.
Qed.

(** [acme] starts without a data file and picks a spreadsheet with one
    row; the second load reads the file. *)
Lemma import_then_reload_witness :
  let w := mkWorld None false [] (λ _, "2024-06-01 12:00:00") 0 [] [] in
  let r := load_data "acme" (Some [[("Item", "bolt")]]) w in
  load_data "acme" None r.2 = r.
Proof.
  refine (proj2 (proj2 (import_then_reload "acme" [[("Item", "bolt")]] None
                          (mkWorld None false []
                             (λ _, "2024-06-01 12:00:00") 0 [] [])
                          eq_refl _))).
  apply Forall_singleton. unfold PyDict.wf, PyDict.keys. simpl.
  apply (bool_decide_unpack _). reflexivity.
Defined.

(** X2.  After a commit of the entry window the data file holds the store
    of the session: loading it returns the store as it is in memory,
    whether the commit replaced a row, appended one or changed
    nothing. *)
Theorem commit_persists_store (P : string)
    (existing_entry : option (list string)) (typed : string → string)
    (app : App) (excel : option (list pydict)) (w : World) :
  Forall PyDict.wf (full_data app) →
  let r := entry_window_save P existing_entry typed app w in
  load_data P excel r.2 = (Some (full_data r.1), r.2).
Proof.
  intros Hwf. cbv zeta. unfold entry_window_save. simpl.
  unfold load_data. rewrite save_data_file.
  rewrite load_dump_indent2; [done|].
  apply merge_entry_wf; [apply entry_record_wf|done].
Qed.

Lemma commit_persists_store_witness :
  let app := mkApp [[("Item", "bolt"); ("Tenant", "acme")]]
               ["Item"; "Tenant"] "" "acme" "" [] in
  let w := mkWorld None false [] (λ _, "2024-06-01 12:00:00") 0 [] [] in
  let r := entry_window_save "acme" None (λ _, "nut") app w in
  load_data "acme" None r.2 = (Some (full_data r.1), r.2).
Proof.
  refine (commit_persists_store "acme" None (λ _, "nut")
            (mkApp [[("Item", "bolt"); ("Tenant", "acme")]]
               ["Item"; "Tenant"] "" "acme" "" [])
            None
            (mkWorld None false [] (λ _, "2024-06-01 12:00:00") 0 [] []) _).
  apply Forall_singleton. unfold PyDict.wf, PyDict.keys. simpl.
  apply (bool_decide_unpack _). reflexivity.
Defined.

(** X3.  [delete_entry] with nothing selected shows the warning and does
    nothing else: the store, the data file and the [git] calls are as
    before.  With a selection it shows no message and the data file
    holds the store of the session afterwards. *)
Theorem delete_entry_selection_cases (P : string)
    (selected : list (list string)) (app : App)
    (excel : option (list pydict)) (w : World) :
  let r := delete_entry P selected app w in
  (selected = [] →
     r.1 = app
     ∧ dialogs r.2 = dialogs w ++ [MsgWarning "Delete" "No item selected"]
     ∧ data_file r.2 = data_file w
     ∧ subprocess_runs r.2 = subprocess_runs w)
  ∧ (selected ≠ [] → Forall PyDict.wf (full_data app) →
       dialogs r.2 = dialogs w
       ∧ load_data P excel r.2 = (Some (full_data r.1), r.2)).
Proof.
  cbv zeta. split.
  - by intros ->.
  - intros Hsel Hwf. destruct selected as [|s selected]; [done|]. simpl.
    split.
    + unfold save_data, git_commit. simpl. by destruct (git_dir w).
    + unfold load_data. rewrite save_data_file.
      rewrite load_dump_indent2; [done|]. by apply delete_rows_wf.
Qed.

Lemma delete_entry_selection_cases_witness :
  let app := mkApp [[("Item", "bolt"); ("Tenant", "acme")];
                    [("Item", "nut"); ("Tenant", "acme")]]
               ["Item"; "Tenant"] "" "acme" "" [] in
  let w := mkWorld None false [] (λ _, "2024-06-01 12:00:00") 0 [] [] in
  let r := delete_entry "acme" [["bolt"; "acme"]] app w in
  dialogs r.2 = []
  ∧ load_data "acme" None r.2 = (Some (full_data r.1), r.2).
Proof.
  refine (proj2 (delete_entry_selection_cases "acme" [["bolt"; "acme"]]
                   (mkApp [[("Item", "bolt"); ("Tenant", "acme")];
                           [("Item", "nut"); ("Tenant", "acme")]]
                      ["Item"; "Tenant"] "" "acme" "" [])
                   None
                   (mkWorld None false []
                      (λ _, "2024-06-01 12:00:00") 0 [] []))
            _ _).
  - discriminate.
  - repeat apply Forall_cons_2; [| |apply Forall_nil_2];
      unfold PyDict.wf, PyDict.keys; simpl;
      apply (bool_decide_unpack _); reflexivity.
Defined.

(** X4.  After [delete_entry] no row is left that both shows a selected
    tuple and is open to the user: identical duplicates of a selected
    row go together.  Deleting the same selection again changes
    nothing more. *)
Theorem delete_entry_removes_all_duplicates (P : string)
    (selected : list (list string)) (app : App) (w w' : World) :
  let app' := (delete_entry P selected app w).1 in
  (∀ row, row ∈ full_data app' →
          row_values (columns app) row ∈ selected → ¬ may_act P row)
  ∧ full_data (delete_entry P selected app' w').1 = full_data app'.
Proof.
  cbv zeta. destruct selected as [|s selected]; simpl.
  - split; [|done]. intros row _ Hin. by apply elem_of_nil in Hin.
  - rewrite !delete_rows_filter. split.
    + intros row [Hkeep _]%list_elem_of_filter Hin Hmay. by apply Hkeep.
    + by apply list_filter_filter_r.
Qed.

(** [other] selects the row of [acme]: the row stays, and it is one
    [other] may not act on. *)
Lemma delete_entry_removes_all_duplicates_witness :
  ¬ may_act "other" [("Item", "bolt"); ("Tenant", "acme")].
Proof.
  refine (proj1 (delete_entry_removes_all_duplicates "other"
                   [["bolt"; "acme"]]
                   (mkApp [[("Item", "bolt"); ("Tenant", "acme")]]
                      ["Item"; "Tenant"] "" "other" "" [])
                   (mkWorld None false []
                      (λ _, "2024-06-01 12:00:00") 0 [] [])
                   (mkWorld None false []
                      (λ _, "2024-06-01 12:00:00") 0 [] []))
            [("Item", "bolt"); ("Tenant", "acme")] _ _).
  - left.
  - left.
Defined.

(** ** What a commit stores *)

Lemma get_foldl_set_map (f : string → string) (cols : list string)
    (acc : pydict) (k : string) :
  PyDict.get
    (foldl (λ d kv, PyDict.set d kv.1 kv.2) acc (map (λ c, (c, f c)) cols)) k
  = if decide (k ∈ cols) then Some (f k) else PyDict.get acc k.
Proof.
  revert acc. induction cols as [|c cols IH]; intros acc; [done|].
  simpl. rewrite IH. destruct (decide (k ∈ cols)) as [Hin|Hnin].
  - rewrite decide_True; [done|by right].
  - destruct (decide (c = k)) as [->|Hne].
    + rewrite decide_True by left. apply get_set_eq.
    + rewrite decide_False.
      * by apply get_set_ne.
      * intros [?|?]%elem_of_cons; done.
Qed.

Lemma entry_fields_get (columns : list string) (typed : string → string)
    (k : string) :
  PyDict.get
    (foldl (λ d kv, PyDict.set d kv.1 kv.2) []
       (PyDict.of_pairs (map (λ col, (col, typed col)) columns))) k
  = if decide (k ∈ columns) then Some (typed k) else None.
Proof.
  change (foldl (λ d kv, PyDict.set d kv.1 kv.2) []
            (PyDict.of_pairs (map (λ col, (col, typed col)) columns)))
    with (PyDict.of_pairs
            (PyDict.of_pairs (map (λ col, (col, typed col)) columns))).
  rewrite of_pairs_wf.
  - unfold PyDict.of_pairs. by rewrite get_foldl_set_map.
  - apply foldl_set_wf. apply NoDup_nil_2.
Qed.

(** X5.  The record a commit builds holds, for every column of the table,
    the text typed into that column's box, except for [Last Updated],
    always the stamp, and for [Tenant] when the user is not the
    administrator.  Its fields are the columns together with
    [Last Updated] and, for such a user, [Tenant], also when the table
    has no such column. *)
Theorem entry_record_fields (P : string) (columns : list string)
    (typed : string → string) (stamp : string) :
  (∀ col, col ∈ columns → col ≠ LAST_UPDATED_FIELD →
          P = ADMIN ∨ col ≠ TENANT_FIELD →
          PyDict.get (entry_record P columns typed stamp) col
          = Some (typed col))
  ∧ (∀ k, is_Some (PyDict.get (entry_record P columns typed stamp) k)
          ↔ k ∈ columns ∨ k = LAST_UPDATED_FIELD
            ∨ (P ≠ ADMIN ∧ k = TENANT_FIELD)).
Proof.
  assert (Hget : ∀ k,
    PyDict.get (entry_record P columns typed stamp) k
    = if decide (P ≠ ADMIN ∧ k = TENANT_FIELD) then Some P
      else if decide (k = LAST_UPDATED_FIELD) then Some stamp
      else if decide (k ∈ columns) then Some (typed k) else None).
  { intros k. unfold entry_record.
    destruct (decide (P ≠ ADMIN ∧ k = TENANT_FIELD)) as [[Hne ->]|Hno].
    - rewrite bool_decide_eq_true_2 by done. apply get_set_eq.
    - assert (Hinner : PyDict.get
        (PyDict.set
           (foldl (λ d kv, PyDict.set d kv.1 kv.2) []
              (PyDict.of_pairs (map (λ col, (col, typed col)) columns)))
           LAST_UPDATED_FIELD stamp) k
        = if decide (k = LAST_UPDATED_FIELD) then Some stamp
          else if decide (k ∈ columns) then Some (typed k) else None).
      { destruct (decide (k = LAST_UPDATED_FIELD)) as [->|Hlu].
        - apply get_set_eq.
        - rewrite get_set_ne by done. apply entry_fields_get. }
      case_bool_decide as Hadmin; [|done].
      rewrite get_set_ne; [done|]. intros <-. by apply Hno. }
  split.
  - intros col Hin Hlu Hten. rewrite Hget.
    rewrite decide_False by (intros [? ->]; by destruct Hten).
    by rewrite decide_False, decide_True.
  - intros k. rewrite Hget.
    destruct (decide (P ≠ ADMIN ∧ k = TENANT_FIELD)) as [Hpt|Hpt].
    { split; [by intros _; right; right|by eexists]. }
    destruct (decide (k = LAST_UPDATED_FIELD)) as [Hlu|Hlu].
    { split; [by intros _; right; left|by eexists]. }
    destruct (decide (k ∈ columns)) as [Hin|Hnin].
    { split; [by left|by eexists]. }
    split; [intros [? [=]]|intros [?|[?|?]]; done].
Qed.

(** The administrator types a tenant name: it is stored as typed. *)
Lemma entry_record_fields_witness :
  PyDict.get
    (entry_record ADMIN ["Item"; "Tenant"]
       (λ col, if decide (col = "Tenant") then "globex" else "bolt")
       "2024-06-01 12:00:00")
    "Tenant"
  = Some "globex".
Proof.
  refine (proj1 (entry_record_fields ADMIN ["Item"; "Tenant"]
                   (λ col, if decide (col = "Tenant") then "globex" else "bolt")
                   "2024-06-01 12:00:00")
            "Tenant" _ _ _).
  - right. left.
  - discriminate.
  - by left.
Defined.

Lemma merge_entry_length (P : string) (columns : list string)
    (existing_entry : option (list string)) (entry_data : pydict)
    (rows : list pydict) :
  length rows
  ≤ length (merge_entry P columns existing_entry entry_data rows)
  ≤ S (length rows).
Proof.
  induction rows as [|row rest IH]; simpl; [lia|].
  destruct (truthy existing_entry
            && bool_decide (Some (row_values columns row) = existing_entry)).
  - destruct (authorized P row); simpl; lia.
  - simpl. lia.
Qed.

(** X6.  A commit never removes a row and adds at most one.  From the
    creating state (no existing entry) the record goes to the end of
    the store and the rows before it are untouched, also when an equal
    row is already there. *)
Theorem commit_grows_store_by_at_most_one (P : string)
    (existing_entry : option (list string)) (typed : string → string)
    (app : App) (w : World) :
  let app' := (entry_window_save P existing_entry typed app w).1 in
  length (full_data app) ≤ length (full_data app') ≤ S (length (full_data app))
  ∧ (existing_entry = None →
       full_data app'
       = full_data app
         ++ [entry_record P (columns app) typed (clock w (ticks w))]).
Proof.
  cbv zeta. rewrite entry_window_save_full_data. split.
  - apply merge_entry_length.
  - intros ->. by apply merge_entry_falsy.
Qed.

Lemma commit_grows_store_by_at_most_one_witness :
  let app := mkApp [[("Item", "bolt"); ("Tenant", "acme")]]
               ["Item"; "Tenant"] "" "acme" "" [] in
  let w := mkWorld None false [] (λ _, "2024-06-01 12:00:00") 0 [] [] in
  full_data (entry_window_save "acme" None (λ _, "nut") app w).1
  = full_data app
    ++ [entry_record "acme" (columns app) (λ _, "nut") "2024-06-01 12:00:00"].
Proof.
  exact (proj2 (commit_grows_store_by_at_most_one "acme" None (λ _, "nut")
                  (mkApp [[("Item", "bolt"); ("Tenant", "acme")]]
                     ["Item"; "Tenant"] "" "acme" "" [])
                  (mkWorld None false []
                     (λ _, "2024-06-01 12:00:00") 0 [] []))
           eq_refl).
Defined.

(** ** What the table shows *)

Lemma contains_empty (s : string) : PyStr.contains "" s = true.
Proof. by destruct s. Qed.

Lemma lower_char_idemp (c : ascii) :
  PyStr.lower_char (PyStr.lower_char c) = PyStr.lower_char c.
Proof. destruct c as [[] [] [] [] [] [] [] []]; reflexivity. Qed.

Lemma lower_idemp (s : string) : PyStr.lower (PyStr.lower s) = PyStr.lower s.
Proof.
  induction s as [|c s IH]; [done|]. simpl. by rewrite lower_char_idemp, IH.
Qed.

Lemma row_shown_own (P query tenant_query project_query : string)
    (row : pydict) :
  P ≠ ADMIN →
  row_shown P query tenant_query project_query row = true →
  PyDict.get row TENANT_FIELD = Some P.
Proof.
  intros Hne. unfold row_shown, tenant_match.
  rewrite (bool_decide_eq_false_2 (P = ADMIN)) by done. simpl.
  intros [[_ Hown]%andb_true_iff _]%andb_true_iff.
  by apply bool_decide_eq_true in Hown.
Qed.

(** X7.  Whatever the three filter boxes hold, the table shows only rows
    of the user's access scope, in the order of the store: a user
    other than the administrator never sees a row of another
    tenant. *)
Theorem displayed_rows_within_scope (P search tenant project : string)
    (rows : list pydict) :
  displayed_rows P search tenant project rows `sublist_of` scope P rows
  ∧ (P ≠ ADMIN →
     ∀ row, row ∈ displayed_rows P search tenant project rows →
            PyDict.get row TENANT_FIELD = Some P).
Proof.
  unfold displayed_rows. rewrite filtered_rows_filter. split.
  - unfold scope. case_bool_decide as Hadmin; [apply sublist_filter|].
    rewrite own_rows_filter.
    rewrite <- (list_filter_filter_l _
                  (λ row, PyDict.get row TENANT_FIELD = Some P)).
    + apply sublist_filter.
    + intros row. by apply row_shown_own.
  - intros Hne row [Hshown _]%list_elem_of_filter.
    by apply row_shown_own in Hshown.
Qed.

(** [globex] searches for [bolt] with [acme] in the tenant box: the
    row shown is its own. *)
Lemma displayed_rows_within_scope_witness :
  PyDict.get [("Item", "bolt"); ("Tenant", "globex")] TENANT_FIELD
  = Some "globex".
Proof.
  refine (proj2 (displayed_rows_within_scope "globex" "bolt" "acme" ""
                   [[("Item", "bolt"); ("Tenant", "acme")];
                    [("Item", "bolt"); ("Tenant", "globex")]])
            _ [("Item", "bolt"); ("Tenant", "globex")] _).
  - discriminate.
  - vm_compute. left.
Defined.

Lemma displayed_rows_unfiltered (P tenant : string) (rows : list pydict) :
  (P = ADMIN → PyStr.strip tenant = "") →
  displayed_rows P "" tenant "" rows = scope P rows.
Proof.
  intros Htenant. unfold displayed_rows, scope.
  assert (Hshown : ∀ row,
    row_shown P (PyStr.lower "") (PyStr.lower (PyStr.strip tenant))
      (PyStr.lower (PyStr.strip "")) row
    = bool_decide (P = ADMIN)
      || bool_decide (PyDict.get row TENANT_FIELD = Some P)).
  { intros row. unfold row_shown, project_match, tenant_match.
    change (PyStr.lower (PyStr.strip "")) with "".
    change (PyStr.lower "") with "". rewrite !contains_empty.
    rewrite andb_true_r. simpl. case_bool_decide as Hadmin; [|done].
    rewrite Htenant by done. done. }
  induction rows as [|row rest IH]; cbn [filtered_rows own_rows].
  - by case_bool_decide.
  - rewrite Hshown, IH. case_bool_decide as Hadmin; [done|]. simpl.
    by case_bool_decide.
Qed.

(** X8.  With an empty search box and an empty project box (and, for the
    administrator, a tenant box that is empty or blank) the rows
    behind the table are exactly the access scope that
    [get_filtered_data] computes, and [refresh_table] shows their
    tuples. *)
Theorem displayed_rows_no_filter_is_scope (P : string) (app : App) :
  search_var app = "" → project_filter app = "" →
  (P = ADMIN → PyStr.strip (tenant_filter app) = "") →
  displayed_rows P (search_var app) (tenant_filter app) (project_filter app)
    (full_data app)
  = scope P (full_data app)
  ∧ tree (refresh_table P app)
    = map (row_values (columns app)) (scope P (full_data app)).
Proof.
  intros Hsearch Hproject Htenant. unfold refresh_table. simpl.
  rewrite Hsearch, Hproject. by rewrite displayed_rows_unfiltered.
Qed.

Lemma displayed_rows_no_filter_is_scope_witness :
  tree (refresh_table ADMIN
          (mkApp [[("Item", "bolt"); ("Tenant", "acme")];
                  [("Item", "nut"); ("Tenant", "globex")]]
             ["Item"; "Tenant"] "" "  " "" []))
  = [["bolt"; "acme"]; ["nut"; "globex"]].
Proof.
  refine (proj2 (displayed_rows_no_filter_is_scope ADMIN
                   (mkApp [[("Item", "bolt"); ("Tenant", "acme")];
                           [("Item", "nut"); ("Tenant", "globex")]]
                      ["Item"; "Tenant"] "" "  " "" [])
                   eq_refl eq_refl _)).
  reflexivity.
Defined.

(** ** The text that [json] writes *)

Section JsonText.

Import Json.

Lemma escape_char_printable (c : ascii) :
  forallb printable (escape_char c) = true.
Proof. destruct c as [[] [] [] [] [] [] [] []]; reflexivity. Qed.

Lemma escape_printable (s : string) : Forall (λ c, printable c = true) (escape s).
Proof.
  induction s as [|c s IH]; simpl; [done|].
  apply Forall_app. split; [|done].
  apply Forall_forall. intros x Hx.
  pose proof (escape_char_printable c) as Hall.
  rewrite forallb_forall in Hall. apply Hall. by apply list_elem_of_In.
Qed.

Lemma join_Forall (Q : ascii → Prop) (sep : list ascii)
    (items : list (list ascii)) :
  Forall Q sep → Forall (Forall Q) items → Forall Q (join sep items).
Proof.
  intros Hsep. induction items as [|x items IH]; intros Hitems; [done|].
  apply Forall_cons in Hitems as [Hx Hitems].
  destruct items as [|y items]; [done|].
  change (join sep (x :: y :: items)) with (x ++ sep ++ join sep (y :: items)).
  repeat (apply Forall_app; split); auto.
Qed.

Lemma encode_string_printable (s : string) :
  Forall (λ c, printable c = true) (encode_string s).
Proof.
  unfold encode_string. apply Forall_cons. split; [done|].
  apply Forall_app. split; [apply escape_printable|by apply Forall_singleton].
Qed.

Lemma encode_member_printable (sep : list ascii) (kv : string * string) :
  Forall (λ c, printable c = true) sep →
  Forall (λ c, printable c = true) (encode_member sep kv).
Proof.
  intros Hsep. unfold encode_member.
  apply Forall_app. split; [apply encode_string_printable|].
  apply Forall_app. split; [done|apply encode_string_printable].
Qed.

Lemma encode_dict_compact_printable (row : pydict) :
  Forall (λ c, printable c = true)
    (encode_dict None (chars ", ") (chars ": ") 0 row).
Proof.
  destruct row as [|p ps]; [by repeat constructor|].
  unfold encode_dict.
  repeat (apply Forall_app; split); [by repeat constructor| |
                                     by repeat constructor].
  apply join_Forall; [by repeat constructor|].
  apply Forall_forall. intros x [kv [-> _]]%list_elem_of_fmap.
  apply encode_member_printable. by repeat constructor.
Qed.

Lemma newline_indent_text (level : nat) :
  Forall (λ c, printable c = true ∨ c = "010"%char)
    (newline_indent (chars "  ") level).
Proof.
  unfold newline_indent. apply Forall_cons. split; [by right|].
  induction level as [|level IH]; simpl; [done|].
  do 2 (apply Forall_cons; split; [by left|]). exact IH.
Qed.

Lemma encode_dict_indent_text (level : nat) (row : pydict) :
  Forall (λ c, printable c = true ∨ c = "010"%char)
    (encode_dict (Some (chars "  ")) (chars ",") (chars ": ") level row).
Proof.
  destruct row as [|p ps]; [by repeat constructor|].
  unfold encode_dict.
  repeat (apply Forall_app; split);
    try apply newline_indent_text; try (by repeat constructor).
  apply join_Forall.
  - apply Forall_app. split; [by repeat constructor|].
    apply newline_indent_text.
  - apply Forall_forall. intros x [kv [-> _]]%list_elem_of_fmap.
    eapply Forall_impl; [apply encode_member_printable|]; [|by left].
    by repeat constructor.
Qed.

Lemma dumps_printable (row : pydict) :
  Forall (λ c, printable c = true) (chars_of (dumps row)).
Proof.
  unfold chars_of, dumps. rewrite list_ascii_of_string_of_list_ascii.
  apply encode_dict_compact_printable.
Qed.

(** X10.  What [save_data] writes is plain ASCII: every character of the
    data file is printable ASCII or a line feed, whatever the records
    hold; and the one-line form that the search reads has printable
    ASCII only. *)
Theorem json_text_is_ascii (data : list pydict) (row : pydict) :
  Forall (λ c, printable c = true ∨ c = "010"%char)
    (chars_of (dump_indent2 data))
  ∧ Forall (λ c, printable c = true) (chars_of (dumps row)).
Proof.
  split; [|apply dumps_printable].
  unfold chars_of, dump_indent2.
  rewrite !list_ascii_of_string_of_list_ascii.
  - destruct data as [|r rs]; [by repeat constructor|].
    unfold encode_list.
    repeat (apply Forall_app; split);
      try apply newline_indent_text; try (by repeat constructor).
    apply join_Forall.
    + apply Forall_app. split; [by repeat constructor|].
      apply newline_indent_text.
    + apply Forall_forall. intros x [d [-> _]]%list_elem_of_fmap.
      apply encode_dict_indent_text.
Qed.

End JsonText.

(** ** Search and characters outside ASCII *)

Lemma startswith_chars (p s : string) (c : ascii) :
  PyStr.startswith p s = true → c ∈ chars_of p → c ∈ chars_of s.
Proof.
  revert s. induction p as [|a p IH]; intros s Hstart Hc.
  - by apply elem_of_nil in Hc.
  - destruct s as [|b s]; [done|]. simpl in Hstart.
    apply andb_true_iff in Hstart as [Hab Hrest].
    apply Ascii.eqb_eq in Hab as ->.
    unfold chars_of in *. simpl in *.
    apply elem_of_cons in Hc as [->|Hc]; [left|right; by apply IH].
Qed.

Lemma contains_chars (needle hay : string) (c : ascii) :
  PyStr.contains needle hay = true → c ∈ chars_of needle → c ∈ chars_of hay.
Proof.
  induction hay as [|b hay IH]; intros Hcont Hc.
  - simpl in Hcont. rewrite orb_false_r in Hcont.
    by apply (startswith_chars needle "").
  - simpl in Hcont. apply orb_true_iff in Hcont as [Hstart|Hrest].
    + by apply (startswith_chars needle).
    + unfold chars_of in *. simpl. right. by apply IH.
Qed.

Lemma lower_char_printable (c : ascii) :
  printable (PyStr.lower_char c) = printable c.
Proof. destruct c as [[] [] [] [] [] [] [] []]; reflexivity. Qed.

Lemma lower_chars (s : string) :
  chars_of (PyStr.lower s) = map PyStr.lower_char (chars_of s).
Proof.
  unfold chars_of. induction s as [|c s IH]; [done|]. simpl. by rewrite IH.
Qed.

(** X11.  A query that holds a character of code point below 256
    other than printable ASCII (the letter U+00E9, a tab) shows no row
    at all, also when a field holds that very text: the search reads
    the [json.dumps] form of a row, in which such a character is
    always written as an escape, and lower-casing keeps such a
    character outside printable ASCII. *)
Theorem search_outside_ascii_shows_nothing (P search tenant project : string)
    (rows : list pydict) (c : ascii) :
  c ∈ chars_of search → printable c = false →
  displayed_rows P search tenant project rows = [].
Proof.
  intros Hc Hnp. unfold displayed_rows.
  induction rows as [|row rest IH]; [done|].
  cbn [filtered_rows]. rewrite IH.
  assert (Hno : PyStr.contains (PyStr.lower search)
                  (PyStr.lower (Json.dumps row)) = false).
  { apply not_true_is_false. intros Hcont.
    assert (Hin : PyStr.lower_char c ∈ chars_of (PyStr.lower (Json.dumps row))).
    { apply (contains_chars _ _ _ Hcont). rewrite lower_chars.
      apply list_elem_of_fmap. by exists c. }
    rewrite lower_chars in Hin.
    apply list_elem_of_fmap in Hin as (d & Hd & Hin).
    pose proof (dumps_printable row) as Hall.
    rewrite Forall_forall in Hall. specialize (Hall d Hin).
    rewrite <- lower_char_printable, <- Hd, lower_char_printable in Hall.
    congruence. }
  unfold row_shown. by rewrite Hno.
Qed.

(** The administrator searches for the letter of code point 233
    (e with acute accent) in a store whose only row holds that letter:
    nothing is shown. *)
Lemma search_outside_ascii_shows_nothing_witness :
  displayed_rows ADMIN (String "233" "") "" ""
    [[("Item", String "233" ""); ("Tenant", "acme")]]
  = [].
Proof.
  refine (search_outside_ascii_shows_nothing ADMIN (String "233" "") "" "" _
            "233"%char _ _).
  - left.
  - reflexivity.
Defined.

(** ** The value lists of the filter boxes *)

Lemma str_le_total : Total str_le.
Proof. intros a b. apply String.leb_total. Qed.

Lemma sorted_set_spec (xs : list string) :
  Sorted str_le (sorted_set xs)
  ∧ NoDup (sorted_set xs)
  ∧ ∀ v, v ∈ sorted_set xs ↔ v ∈ xs.
Proof.
  unfold sorted_set. split_and!.
  - apply (@Sorted_merge_sort _ str_le str_le_dec str_le_total).
  - rewrite (@merge_sort_Permutation _ str_le str_le_dec).
    apply NoDup_remove_dups.
  - intros v. rewrite (@merge_sort_Permutation _ str_le str_le_dec).
    apply elem_of_remove_dups.
Qed.

Lemma has_value_true (row : pydict) (key : string) :
  has_value row key = true
  ↔ ∃ v, v ≠ "" ∧ PyDict.get row key = Some v.
Proof.
  unfold has_value. destruct (PyDict.get row key) as [[|c v]|]; simpl.
  - split; [done|]. intros (v & Hv & [= Heq]). by subst v.
  - split; [|done]. intros _. by exists (String c v).
  - split; [done|]. intros (v & _ & [=]).
Qed.

Lemma elem_of_field_values (keep : pydict → bool) (key v : string)
    (rows : list pydict) :
  v ∈ field_values keep key rows
  ↔ ∃ row, row ∈ rows ∧ keep row = true ∧ PyDict.get_default row key "" = v.
Proof.
  induction rows as [|row rest IH]; simpl.
  - split; [by intros ?%elem_of_nil|by intros (? & ?%elem_of_nil & _)].
  - destruct (keep row) eqn:Hkeep.
    + rewrite elem_of_cons, IH. split.
      * intros [->|(r & Hr & Hk & Hv)]; [exists row|exists r];
          split_and!; try done; [left|by right].
      * intros (r & [->|Hr]%elem_of_cons & Hk & Hv); [by left|right].
        by exists r.
    + rewrite IH. split.
      * intros (r & Hr & Hk & Hv). exists r. split_and!; [by right|done..].
      * intros (r & [->|Hr]%elem_of_cons & Hk & Hv); [congruence|].
        by exists r.
Qed.

(** X12.  [get_unique_values] and [get_available_projects] return the
    distinct non-empty values of the field, each once, in increasing
    order; a row without the field or with an empty value contributes
    nothing, and for a user other than the administrator
    [get_available_projects] reads the user's own rows only. *)
Theorem value_lists_sorted_distinct (P key : string) (rows : list pydict) :
  (Sorted str_le (get_unique_values rows key)
   ∧ NoDup (get_unique_values rows key)
   ∧ ∀ v, v ∈ get_unique_values rows key
          ↔ v ≠ "" ∧ ∃ row, row ∈ rows ∧ PyDict.get row key = Some v)
  ∧ (Sorted str_le (get_available_projects P rows)
     ∧ NoDup (get_available_projects P rows)
     ∧ ∀ v, v ∈ get_available_projects P rows
            ↔ v ≠ ""
              ∧ ∃ row, row ∈ rows
                  ∧ PyDict.get row PROJECT_FIELD = Some v
                  ∧ (P = ADMIN ∨ PyDict.get row TENANT_FIELD = Some P)).
Proof.
  split.
  - unfold get_unique_values.
    destruct (sorted_set_spec
                (field_values (λ row, has_value row key) key rows))
      as (Hsorted & Hnodup & Hin).
    split_and!; [done..|]. intros v. rewrite Hin, elem_of_field_values.
    split.
    + intros (row & Hrow & (v' & Hne & Hget)%has_value_true & Hv).
      unfold PyDict.get_default in Hv. rewrite Hget in Hv. simpl in Hv.
      subst v'. split; [done|]. by exists row.
    + intros (Hne & row & Hrow & Hget). exists row. split_and!; [done| |].
      * apply has_value_true. by exists v.
      * unfold PyDict.get_default. by rewrite Hget.
  - unfold get_available_projects. case_bool_decide as Hadmin.
    + destruct (sorted_set_spec
                  (field_values (λ row, has_value row PROJECT_FIELD)
                     PROJECT_FIELD rows))
        as (Hsorted & Hnodup & Hin).
      split_and!; [done..|]. intros v. rewrite Hin, elem_of_field_values.
      split.
      * intros (row & Hrow & (v' & Hne & Hget)%has_value_true & Hv).
        unfold PyDict.get_default in Hv. rewrite Hget in Hv. simpl in Hv.
        subst v'. split; [done|]. exists row. split_and!; [done..|by left].
      * intros (Hne & row & Hrow & Hget & _). exists row.
        split_and!; [done| |].
        -- apply has_value_true. by exists v.
        -- unfold PyDict.get_default. by rewrite Hget.
    + destruct (sorted_set_spec
                  (field_values
                     (λ row,
                        bool_decide (PyDict.get row TENANT_FIELD = Some P)
                        && has_value row PROJECT_FIELD)
                     PROJECT_FIELD rows))
        as (Hsorted & Hnodup & Hin).
      split_and!; [done..|]. intros v. rewrite Hin, elem_of_field_values.
      split.
      * intros (row & Hrow & [Hown (v' & Hne & Hget)%has_value_true]%andb_true_iff
                & Hv).
        apply bool_decide_eq_true in Hown.
        unfold PyDict.get_default in Hv. rewrite Hget in Hv. simpl in Hv.
        subst v'. split; [done|]. exists row. split_and!; [done..|by right].
      * intros (Hne & row & Hrow & Hget & [?|Hown]); [done|]. exists row.
        split_and!; [done| |].
        -- apply andb_true_iff. split; [by apply bool_decide_eq_true|].
           apply has_value_true. by exists v.
        -- unfold PyDict.get_default. by rewrite Hget.
Qed.

(** ** [update_treeview] and the missing column *)

Lemma row_items_None (columns : list string) (row : pydict) :
  row_items columns row = None
  ↔ ∃ col, col ∈ columns ∧ PyDict.get row col = None.
Proof.
  unfold row_items. rewrite mapM_None, Exists_exists. done.
Qed.

Lemma row_items_Some (columns : list string) (row : pydict)
    (values : list string) :
  row_items columns row = Some values → values = row_values columns row.
Proof.
  unfold row_items, row_values. revert values.
  induction columns as [|col columns IH]; intros values; simpl.
  - by intros [= <-].
  - unfold PyDict.get_default.
    destruct (PyDict.get row col) as [v|]; simpl; [|done].
    destruct (mapM (PyDict.get row) columns) as [vs|]; simpl; [|done].
    intros [= <-]. by rewrite (IH vs).
Qed.

Lemma treeview_rows_None (query : string) (columns : list string)
    (data : list pydict) :
  treeview_rows query columns data = None
  ↔ ∃ row, row ∈ data ∧ any_value_contains query row = true
      ∧ ∃ col, col ∈ columns ∧ PyDict.get row col = None.
Proof.
  induction data as [|row rest IH]; simpl.
  - split; [done|by intros (? & ?%elem_of_nil & _)].
  - destruct (any_value_contains query row) eqn:Hany.
    + destruct (row_items columns row) as [values|] eqn:Hitems.
      * rewrite fmap_None, IH. split.
        -- intros (r & Hr & Hrest). exists r. split; [by right|done].
        -- intros (r & [->|Hr]%elem_of_cons & Ha & Hmiss).
           ++ apply row_items_None in Hmiss. congruence.
           ++ by exists r.
      * split; [|done]. intros _. exists row. split_and!; [left|done|].
        by apply row_items_None.
    + rewrite IH. split.
      * intros (r & Hr & Hrest). exists r. split; [by right|done].
      * intros (r & [->|Hr]%elem_of_cons & Ha & Hmiss); [congruence|].
        by exists r.
Qed.

Lemma treeview_rows_Some (query : string) (columns : list string)
    (data : list pydict) (tree : list (list string)) :
  treeview_rows query columns data = Some tree →
  tree = map (row_values columns)
           (filter (λ row, any_value_contains query row = true) data).
Proof.
  revert tree. induction data as [|row rest IH]; intros tree; simpl.
  - by intros [= <-].
  - rewrite filter_cons.
    destruct (any_value_contains query row) eqn:Hany; simpl.
    + destruct (row_items columns row) as [values|] eqn:Hitems; [|done].
      destruct (treeview_rows query columns rest) as [tree'|]; [|done].
      simpl. intros [= <-]. apply row_items_Some in Hitems as ->.
      by rewrite (IH tree').
    + apply IH.
Qed.

(** X13.  [update_treeview] raises [KeyError] exactly when a row that
    matches the query (one of its values holds the stripped,
    lower-cased query) lacks one of the columns; otherwise it shows
    the matching rows in order, and a row without any field is never
    among them. *)
Theorem update_treeview_result (search : string) (columns : list string)
    (data : list pydict) :
  let query := PyStr.strip (PyStr.lower search) in
  (update_treeview search columns data = None
   ↔ ∃ row, row ∈ data ∧ any_value_contains query row = true
       ∧ ∃ col, col ∈ columns ∧ PyDict.get row col = None)
  ∧ (∀ tree, update_treeview search columns data = Some tree →
       tree = map (row_values columns)
                (filter (λ row, any_value_contains query row = true) data))
  ∧ any_value_contains query [] = false.
Proof.
  cbv zeta. unfold update_treeview. split_and!.
  - apply treeview_rows_None.
  - apply treeview_rows_Some.
  - done.
Qed.

(** A row that lacks the column [Tenant]: the table cannot be
    filled. *)
Lemma update_treeview_result_witness :
  update_treeview "" ["Item"; "Tenant"] [[("Item", "bolt")]] = None.
Proof.
  refine (proj2 (proj1 (update_treeview_result "" ["Item"; "Tenant"]
                          [[("Item", "bolt")]])) _).
  exists [("Item", "bolt")]. split_and!; [left|reflexivity|].
  exists "Tenant". split; [right; left|reflexivity].
Defined.

(** ** Records and their fields *)

Lemma map_keys_get_default (row : pydict) :
  PyDict.wf row →
  map (λ col, (col, PyDict.get_default row col "")) (PyDict.keys row) = row.
Proof.
  unfold PyDict.wf, PyDict.keys, PyDict.get_default.
  induction row as [|[k v] row IH]; [done|].
  rewrite fmap_cons. cbn [fst]. intros [Hk Hnd]%NoDup_cons.
  cbn [map PyDict.get]. rewrite decide_True by done. simpl. f_equal.
  rewrite <- (IH Hnd) at 2. apply map_ext_in. intros c Hc.
  rewrite decide_False; [done|]. intros <-. apply Hk.
  by apply list_elem_of_In.
Qed.

(** ** Start-up *)

Lemma any_value_empty_query (row : pydict) :
  any_value_contains "" row = true ↔ row ≠ [].
Proof.
  destruct row as [|[k v] row]; [done|].
  unfold any_value_contains. simpl. by rewrite contains_empty.
Qed.

(** X16.  Start-up on a data file that [json.load] decodes to the
    rows [rows] decodes the file twice and writes nothing.  It stops
    with [KeyError] exactly when a row of the user's access scope that
    has at least one field lacks a field of the first row of the
    store; otherwise the store is [rows], the columns are the fields
    of its first row (the six default columns for an empty store), and
    the table shows the access scope. *)
Theorem startup_on_existing_file (P text : string) (rows : list pydict)
    (excel1 excel2 : option (list pydict)) (w : World) :
  data_file w = Some text →
  Json.load text = Some rows →
  let cols :=
    match rows with
    | row :: _ => PyDict.keys row
    | [] => default_columns
    end in
  let r := InventoryApp_init P excel1 excel2 w in
  r.2 = w
  ∧ (r.1 = None
     ↔ ∃ row, row ∈ scope P rows ∧ row ≠ []
         ∧ ∃ col, col ∈ cols ∧ PyDict.get row col = None)
  ∧ (∀ app, r.1 = Some app →
       app = mkApp rows cols "" (tenant_default P) ""
               (map (row_values cols) (scope P rows))).
Proof.
  intros Hfile Hdecode. cbv zeta.
  assert (Hload : ∀ excel, load_data P excel w = (Some rows, w)).
  { intros excel. unfold load_data. by rewrite Hfile, Hdecode. }
  unfold InventoryApp_init, get_filtered_data. rewrite !Hload. simpl.
  set (cols := match rows with
               | row :: _ => PyDict.keys row
               | [] => default_columns
               end).
  unfold update_treeview. change (PyStr.strip (PyStr.lower "")) with "".
  destruct (treeview_rows "" cols (scope P rows)) as [tree0|] eqn:Htree.
  - simpl. split_and!; [done| |].
    + split; [done|]. intros (row & Hrow & Hne & Hmiss).
      assert (Hnone : treeview_rows "" cols (scope P rows) = None).
      { apply treeview_rows_None. exists row. split_and!; [done| |done].
        by apply any_value_empty_query. }
      congruence.
    + intros app [= <-]. unfold refresh_table. simpl. f_equal.
      rewrite displayed_rows_unfiltered; [done|].
      intros ->. reflexivity.
  - simpl. split_and!; [done| |done].
    split; [|done]. intros _.
    apply treeview_rows_None in Htree as (row & Hrow & Hany & Hmiss).
    exists row. split_and!; [done| |done]. by apply any_value_empty_query.
Qed.

(** [acme] starts on a hand-written file with one own row: nothing is
    written. *)
Lemma startup_on_existing_file_witness :
  let text :=
    "[{" +:+ String "034" "Item" +:+ String "034" ": "
    +:+ String "034" "bolt" +:+ String "034" ", "
    +:+ String "034" "Tenant" +:+ String "034" ":"
    +:+ String "034" "acme" +:+ String "034" "}]" in
  let w := mkWorld (Some text) false []
             (λ _, "2024-06-01 12:00:00") 0 [] [] in
  (InventoryApp_init "acme" None None w).2 = w.
Proof.
  refine (proj1 (startup_on_existing_file "acme" _
                   [[("Item", "bolt"); ("Tenant", "acme")]] None None
                   (mkWorld (Some _) false []
                      (λ _, "2024-06-01 12:00:00") 0 [] [])
                   eq_refl _)).
  reflexivity.
Defined.

(** ** Start-up without a data file *)

(** X17.  Without a data file, start-up asks for a spreadsheet twice, once
    per [load_data] call.  When both dialogs are cancelled the session
    starts with an empty store, the six default columns and an empty
    table, and no file is created.  When only the first is cancelled
    the store is the stamped import of the second, now written to the
    data file. *)
Theorem startup_without_file (P : string) (rows : list pydict) (w : World) :
  data_file w = None →
  InventoryApp_init P None None w
  = (Some (mkApp [] default_columns "" (tenant_default P) "" []), w)
  ∧ ∃ app,
      (InventoryApp_init P None (Some rows) w).1 = Some app
      ∧ full_data app = (stamp_rows P rows w).1
      ∧ data_file (InventoryApp_init P None (Some rows) w).2
        = Some (Json.dump_indent2 (stamp_rows P rows w).1).
Proof.
  intros Hnone.
  assert (Hscope : scope P [] = []) by (unfold scope; by case_bool_decide).
  split.
  - unfold InventoryApp_init, get_filtered_data, load_data.
    rewrite Hnone. simpl. rewrite Hnone, Hscope. done.
  - unfold InventoryApp_init, get_filtered_data, load_data.
    rewrite Hnone. simpl. rewrite Hnone, Hscope.
    destruct (stamp_rows P rows w) as [data w1]. simpl.
    eexists. split_and!; [done..|]. apply save_data_file.
Qed.

Lemma startup_without_file_witness :
  InventoryApp_init "acme" None None
    (mkWorld None false [] (λ _, "2024-06-01 12:00:00") 0 [] [])
  = (Some (mkApp [] default_columns "" "acme" "" []),
     mkWorld None false [] (λ _, "2024-06-01 12:00:00") 0 [] []).
Proof.
  exact (proj1 (startup_without_file "acme" []
                  (mkWorld None false []
                     (λ _, "2024-06-01 12:00:00") 0 [] [])
                  eq_refl)).
Defined.

(** ** The entry window *)

Lemma index_of_lookup (col : string) (columns : list string) :
  col ∈ columns →
  ∃ i, index_of col columns = Some i ∧ columns !! i = Some col.
Proof.
  induction columns as [|c columns IH]; [by intros ?%elem_of_nil|].
  intros Hin. simpl. destruct (decide (c = col)) as [->|Hne].
  - by exists 0.
  - apply elem_of_cons in Hin as [->|Hin]; [done|].
    destruct (IH Hin) as (i & Hi & Hlook). exists (S i).
    by rewrite Hi.
Qed.

Lemma seed_row_values (columns : list string) (row : pydict) (col : string) :
  col ∈ columns →
  entry_window_seed (Some (row_values columns row)) columns col
  = Some (PyDict.get_default row col "").
Proof.
  intros Hin. destruct (index_of_lookup col columns Hin) as (i & Hi & Hlook).
  unfold entry_window_seed. rewrite Hi.
  assert (Htruthy : truthy (Some (row_values columns row)) = true).
  { destruct columns; [by apply elem_of_nil in Hin|done]. }
  rewrite Htruthy. unfold row_values.
  change (map ?f columns) with (f <$> columns).
  by rewrite list_lookup_fmap, Hlook.
Qed.

Lemma set_same (d : pydict) (k v : string) :
  PyDict.get d k = Some v → PyDict.set d k v = d.
Proof.
  induction d as [|[k' v'] d IH]; [done|]. simpl.
  destruct (decide (k' = k)) as [->|Hne].
  - by intros [= ->].
  - intros Hget. by rewrite IH.
Qed.

(** X18.  In the creating state every box of the entry window
    starts empty; in the editing state the box of a column starts with
    the element of the existing-entry tuple at the first position of
    that column, whatever tuple the table handed back.  In the case
    that this tuple holds the row's own strings ([row.get(col, "")]
    for each column) and the columns are exactly the fields of the
    row, committing the window unchanged builds the row again with a
    new stamp and, for a user other than the administrator, with the
    user's name as tenant: nothing else changes. *)
Theorem entry_window_seeds_and_unchanged_commit (P : string)
    (columns values : list string) (row : pydict) (typed : string → string)
    (stamp : string) :
  (∀ col, entry_window_seed None columns col = Some "")
  ∧ (∀ col i, values ≠ [] → index_of col columns = Some i →
       entry_window_seed (Some values) columns col = values !! i)
  ∧ (PyDict.wf row → columns = PyDict.keys row →
     values = row_values columns row →
     (∀ col, col ∈ columns →
        entry_window_seed (Some values) columns col = Some (typed col)) →
     entry_record P columns typed stamp
     = if decide (P = ADMIN)
       then PyDict.set row LAST_UPDATED_FIELD stamp
       else PyDict.set (PyDict.set row LAST_UPDATED_FIELD stamp)
              TENANT_FIELD P).
Proof.
  split_and!; [done| |].
  { intros col i Hne Hi. unfold entry_window_seed. rewrite Hi.
    by destruct values. }
  intros Hwf -> -> Htyped.
  assert (Hpairs : map (λ col, (col, typed col)) (PyDict.keys row) = row).
  { rewrite <- (map_keys_get_default row Hwf) at 2.
    apply map_ext_in. intros col Hcol%list_elem_of_In.
    specialize (Htyped col Hcol). rewrite seed_row_values in Htyped by done.
    by injection Htyped as ->. }
  unfold entry_record. rewrite Hpairs.
  change (foldl (λ d kv, PyDict.set d kv.1 kv.2) [] (PyDict.of_pairs row))
    with (PyDict.of_pairs (PyDict.of_pairs row)).
  rewrite (of_pairs_wf row) by done. rewrite (of_pairs_wf row) by done.
  destruct (decide (P = ADMIN)) as [->|Hne].
  - by rewrite bool_decide_eq_false_2 by tauto.
  - by rewrite bool_decide_eq_true_2.
Qed.

(** [acme] opens its own row and commits it as it is. *)
Lemma entry_window_seeds_and_unchanged_commit_witness :
  entry_record "acme" ["Item"; "Tenant"; "Last Updated"]
    (λ col, PyDict.get_default
              [("Item", "bolt"); ("Tenant", "acme");
               ("Last Updated", "2024-01-01 00:00:00")] col "")
    "2024-06-01 12:00:00"
  = [("Item", "bolt"); ("Tenant", "acme");
     ("Last Updated", "2024-06-01 12:00:00")].
Proof.
  refine (proj2 (proj2 (entry_window_seeds_and_unchanged_commit "acme"
                          ["Item"; "Tenant"; "Last Updated"]
                          ["bolt"; "acme"; "2024-01-01 00:00:00"]
                          [("Item", "bolt"); ("Tenant", "acme");
                           ("Last Updated", "2024-01-01 00:00:00")]
                          _ "2024-06-01 12:00:00"))
            _ eq_refl eq_refl _).
  - unfold PyDict.wf, PyDict.keys. simpl.
    apply (bool_decide_unpack _). reflexivity.
  - intros col Hcol.
    exact (seed_row_values ["Item"; "Tenant"; "Last Updated"]
             [("Item", "bolt"); ("Tenant", "acme");
              ("Last Updated", "2024-01-01 00:00:00")] col Hcol).
Defined.

(** ** Filters and case *)

Lemma is_space_lower_char (c : ascii) :
  PyStr.is_space (PyStr.lower_char c) = PyStr.is_space c.
Proof. destruct c as [[] [] [] [] [] [] [] []]; reflexivity. Qed.

Lemma lstrip_lower (s : string) :
  PyStr.lstrip (PyStr.lower s) = PyStr.lower (PyStr.lstrip s).
Proof.
  induction s as [|c s IH]; [done|]. simpl.
  rewrite is_space_lower_char. by destruct (PyStr.is_space c).
Qed.

Lemma rev_app_lower (s acc : string) :
  String.rev_app (PyStr.lower s) (PyStr.lower acc)
  = PyStr.lower (String.rev_app s acc).
Proof.
  revert acc. induction s as [|c s IH]; intros acc; [done|].
  simpl. by rewrite <- IH.
Qed.

Lemma strip_lower (s : string) :
  PyStr.strip (PyStr.lower s) = PyStr.lower (PyStr.strip s).
Proof.
  unfold PyStr.strip, PyStr.rstrip, String.rev.
  rewrite lstrip_lower.
  rewrite (rev_app_lower _ ""), lstrip_lower.
  by rewrite (rev_app_lower _ "").
Qed.

(** X9.  The three filter boxes are blind to case: each text and its
    lower-cased form show the same rows. *)
Theorem displayed_rows_query_case (P search tenant project : string)
    (rows : list pydict) :
  displayed_rows P (PyStr.lower search) (PyStr.lower tenant)
    (PyStr.lower project) rows
  = displayed_rows P search tenant project rows.
Proof.
  unfold displayed_rows. by rewrite !strip_lower, !lower_idemp.
Qed.
